(** * Cinema hall seat inventory: [cinema.py] against its specification

    A shallow embedding of the two classes of [cinema.py], [Seat] and
    [CinemaHall], followed by the properties the specification states
    about them.

    - [Py] holds the notions of the Python runtime the code relies on:
      numbers ([int] and binary64 [float]), [str] of an integer, the
      [:.2f] format, [range], exceptions.
    - [Cinema] holds the program: one definition per method, written in a
      small state-and-exception monad over the list [self.__seats].
    - The sections after [Cinema] hold the lemmas. *)

From Stdlib Require Import ZArith String Ascii Lia Bool.
From Stdlib Require Import Floats.SpecFloat.
From stdpp Require Import base list strings pretty sorting gmap.

Local Open Scope Z_scope.

(* ===================================================================== *)
(** * The Python runtime                                                  *)
(* ===================================================================== *)

Module Py.

(** ** Floats

    A Python [float] is an IEEE-754 binary64 value; arithmetic rounds to
    nearest, ties to even.  [spec_float] with precision 53 and maximal
    exponent 1024 is that format. *)

Definition prec : Z := 53.
Definition emax : Z := 1024.

Definition float : Type := spec_float.

Definition fmul (x y : float) : float := SFmul prec emax x y.

(** The float with the value of an integer (correctly rounded). *)
Definition float_of_Z (z : Z) : float := binary_normalize prec emax z 0 false.

(** The literals [0.8] and [0.7]: the binary64 values nearest to the
    decimals, [0x1.999999999999ap-1] and [0x1.6666666666666p-1]. *)
Definition lit_0_8 : float := S754_finite false 7205759403792794 (-53).
Definition lit_0_7 : float := S754_finite false 6305039478318694 (-53).

(** ** Numbers

    A price is a Python number, an [int] or a [float]: the source writes
    the [int]s [0] and [10], and a multiplication by [0.8] or [0.7]
    gives a [float]. *)
Inductive num : Type :=
| NInt (z : Z)
| NFloat (f : float).

Definition zero : num := NInt 0.
Definition ten : num := NInt 10.

(** ** Text *)

(** [str(n)] for an [int]. *)
Definition str_int (n : Z) : string := pretty n.

Definition newline : string := String (ascii_of_nat 10) EmptyString.

(** ["\n".join(lines)] *)
Fixpoint join (sep : string) (lines : list string) : string :=
  match lines with
  | [] => ""
  | [x] => x
  | x :: rest => x +:+ sep +:+ join sep rest
  end.

(** [format(x, ".2f")]: the exact value of [x], rounded to hundredths
    (ties to even), printed with two digits after the point. *)

Definition sign_str (s : bool) : string := if s then "-" else "".

(** The integer nearest to [n / 2^k], ties to even. *)
Definition round_half_even_shift (n : Z) (k : Z) : Z :=
  let d := 2 ^ k in
  let q := n / d in
  let r := n mod d in
  match Z.compare (2 * r) d with
  | Lt => q
  | Gt => q + 1
  | Eq => if Z.even q then q else q + 1
  end.

(** The value of [m * 2^e] in hundredths, rounded. *)
Definition hundredths (m : positive) (e : Z) : Z :=
  if 0 <=? e then Z.pos m * 2 ^ e * 100
  else round_half_even_shift (Z.pos m * 100) (- e).

Definition two_digits (k : Z) : string :=
  if k <? 10 then "0" +:+ pretty k else pretty k.

Definition format_2f (x : float) : string :=
  match x with
  | S754_nan => "nan"
  | S754_infinity s => sign_str s +:+ "inf"
  | S754_zero s => sign_str s +:+ "0.00"
  | S754_finite s m e =>
      let h := hundredths m e in
      sign_str s +:+ pretty (h / 100) +:+ "." +:+ two_digits (h mod 100)
  end.

(** ** Values, as far as [isinstance(v, int)] tells them apart.
    ([bool] is a subclass of [int]: [True] and [False] are the integers
    1 and 0.) *)
Inductive pyobj : Type :=
| PyInt (z : Z)
| PyFloat (f : float)
| PyStr (s : string)
| PyNone.

Definition as_int (v : pyobj) : option Z :=
  match v with PyInt z => Some z | _ => None end.

(** [range(lo, hi)] *)
Definition range (lo hi : Z) : list Z := seqZ lo (hi - lo).

(** ** Exceptions.  The program raises [ValueError]; the arithmetic and
    the format of an [int] out of the range of floats raise
    [OverflowError]. *)
Inductive exn : Type :=
| ValueError (msg : string)
| OverflowError (msg : string).

Inductive result (A : Type) : Type :=
| Ok (a : A)
| Raise (e : exn).
Global Arguments Ok {A} a.
Global Arguments Raise {A} e.

(** ** Arithmetic and format of numbers *)

Definition int_too_large : exn :=
  OverflowError "int too large to convert to float".

(** [float(z)] for an [int]: the nearest float, or [OverflowError] when
    that is beyond the largest one. *)
Definition float_of_int (z : Z) : result float :=
  match float_of_Z z with
  | S754_infinity _ => Raise int_too_large
  | f => Ok f
  end.

(** The operand of a float operation, as a float. *)
Definition to_float (x : num) : result float :=
  match x with
  | NInt z => float_of_int z
  | NFloat f => Ok f
  end.

(** [x * c] for a float [c]. *)
Definition mul_float (x : num) (c : float) : result num :=
  match to_float x with
  | Ok f => Ok (NFloat (fmul f c))
  | Raise e => Raise e
  end.

(** [format(x, ".2f")] for a number: an [int] is made a float first. *)
Definition format_2f_num (x : num) : result string :=
  match to_float x with
  | Ok f => Ok (format_2f f)
  | Raise e => Raise e
  end.

End Py.

Export Py.

(* ===================================================================== *)
(** * The program                                                         *)
(* ===================================================================== *)

Module Cinema.

(** ** class Seat *)

Record Seat : Type := mkSeat {
  get_number : Z;        (* self.__number *)
  get_row : Z;           (* self.__row *)
  is_reserved : bool;    (* self.__reserved *)
  get_price : num        (* self.__price *)
}.

(** [Seat.__init__] *)
Definition Seat_init (number row : pyobj) : result Seat :=
  match as_int number with
  | None => Raise (ValueError "The seat number must be a positive integer.")
  | Some n =>
      if n <=? 0
      then Raise (ValueError "The seat number must be a positive integer.")
      else
        match as_int row with
        | None => Raise (ValueError "The seat row must be a positive integer.")
        | Some r =>
            if r <=? 0
            then Raise (ValueError "The seat row must be a positive integer.")
            else Ok (mkSeat n r false zero)
        end
  end.

Definition with_reserved (reserved : bool) (s : Seat) : Seat :=
  mkSeat (get_number s) (get_row s) reserved (get_price s).

Definition with_price (price : num) (s : Seat) : Seat :=
  mkSeat (get_number s) (get_row s) (is_reserved s) price.

(** ** The state of a hall

    A [CinemaHall] object has one attribute, the list [self.__seats] of
    [Seat] objects.  [add_seat] refuses a seat whose (number, row) is in
    the list, so an object occurs in it at most once, and a [Seat] in
    the list is identified by its position: a mutation through a
    reference returned by [search_seat] is an update at that position. *)

Abbreviation Hall := (list Seat).

(** Computations that read and update the hall and may raise.  A raise
    keeps the updates made before it, as in Python. *)
Definition M (A : Type) : Type := Hall → result A * Hall.

#[global] Instance M_ret : MRet M := λ A a h, (Ok a, h).
#[global] Instance M_bind : MBind M := λ A B f m h,
  match m h with
  | (Ok a, h') => f a h'
  | (Raise e, h') => (Raise e, h')
  end.

Definition raise {A} (e : exn) : M A := λ h, (Raise e, h).
Definition lift {A} (r : result A) : M A := λ h, (r, h).

(** [self.__seats] *)
Definition get_seats : M Hall := λ h, (Ok h, h).

(** [self.__seats.append(seat)] *)
Definition append (seat : Seat) : M unit := λ h, (Ok tt, h ++ [seat]).

(** [self.__seats.insert(position, seat)] *)
Definition insert_at (position : nat) (seat : Seat) : M unit :=
  λ h, (Ok tt, take position h ++ seat :: drop position h).

(** [seat.set_price(price)] and [seat.set_reserved(reserved)], for the
    seat at position [i] of the list. *)
Definition set_price (i : nat) (price : num) : M unit :=
  λ h, (Ok tt, alter (with_price price) i h).
Definition set_reserved (i : nat) (reserved : bool) : M unit :=
  λ h, (Ok tt, alter (with_reserved reserved) i h).

(** [for x in xs: body] without [break] *)
Fixpoint for_ {A} (xs : list A) (body : A → M unit) : M unit :=
  match xs with
  | [] => mret tt
  | x :: rest => body x ;; for_ rest body
  end.

(** ** class CinemaHall *)

(** [CinemaHall.__init__], from [self.__seats = []] on. *)
Definition CinemaHall_init (rows seats_per_row : pyobj) : M unit :=
  match as_int seats_per_row with
  | None =>
      raise (ValueError
        "The number of seats in each row must be a positive integer.")
  | Some spr =>
      if spr <=? 0
      then raise (ValueError
        "The number of seats in each row must be a positive integer.")
      else
        match as_int rows with
        | None =>
            raise (ValueError
              "The total number of rows must be a positive integer.")
        | Some rs =>
            if rs <=? 0
            then raise (ValueError
              "The total number of rows must be a positive integer.")
            else
              for_ (range 1 (rs + 1)) (λ row,
                for_ (range 1 (spr + 1)) (λ number,
                  seat ← lift (Seat_init (PyInt number) (PyInt row));
                  append seat))
        end
  end.

(** [CinemaHall(rows, seats_per_row)]: the new object, or the exception. *)
Definition new_CinemaHall (rows seats_per_row : pyobj) : result Hall :=
  match CinemaHall_init rows seats_per_row [] with
  | (Ok _, h) => Ok h
  | (Raise e, _) => Raise e
  end.

(** [search_seat]: the first seat with that number and row, as its
    position and its fields, or [None]. *)
Fixpoint search_from (i : nat) (seats : list Seat) (number row : Z)
  : option (nat * Seat) :=
  match seats with
  | [] => None
  | seat :: rest =>
      if (get_number seat =? number) && (get_row seat =? row)
      then Some (i, seat)
      else search_from (S i) rest number row
  end.

Definition search_seat (number row : Z) : M (option (nat * Seat)) :=
  seats ← get_seats; mret (search_from 0%nat seats number row).

(** [reserve_seat], with every parameter bound. *)
Definition reserve_seat (number row age day_of_week : Z) (base_price : num)
  : M string :=
  found ← search_seat number row;
  match found with
  | Some (i, seat) =>
      if negb (is_reserved seat) then
        let price := base_price in
        price ← (if day_of_week =? 2
                 then lift (mul_float price lit_0_8) else mret price);
        price ← (if age >? 65
                 then lift (mul_float price lit_0_7) else mret price);
        set_price i price;;
        set_reserved i true;;
        price_2f ← lift (format_2f_num price);
        mret ("Seat " +:+ str_int number +:+ " in row " +:+ str_int row
              +:+ " has been reserved. Price: " +:+ price_2f +:+ "€")
      else raise (ValueError "The seat is already reserved.")
  | None => raise (ValueError "The seat does not exist.")
  end.

(** [cancel_reservation] *)
Definition cancel_reservation (number row : Z) : M string :=
  found ← search_seat number row;
  match found with
  | Some (i, seat) =>
      if is_reserved seat then
        set_reserved i false;;
        set_price i zero;;
        mret ("Reservation for seat " +:+ str_int number +:+ " in row "
              +:+ str_int row +:+ " has been canceled.")
      else raise (ValueError "The seat is not reserved.")
  | None => raise (ValueError "The seat does not exist.")
  end.

(** The insertion loop of [add_seat]: [position] counts the seats passed
    before the [break]. *)
Fixpoint find_position (seat : Seat) (seats : list Seat) (position : nat)
  : nat :=
  match seats with
  | [] => position
  | a :: rest =>
      if (get_row seat <? get_row a)
         || ((get_row seat =? get_row a) && (get_number seat <? get_number a))
      then position
      else find_position seat rest (S position)
  end.

Definition row_message (first_row last_row : Z) : string :=
  "The row number is greater than the total number of rows in the hall. Creating new rows is not allowed."
  +:+ "Seats can be added in rows from " +:+ str_int first_row +:+ " to "
  +:+ str_int last_row +:+ ".".

Definition number_message (last_number : Z) : string :=
  "The seat number is not the next in the row. It is only allowed to add seats in order. "
  +:+ "The number of the next available seat is: "
  +:+ str_int (last_number + 1) +:+ ".".

(** [add_seat] *)
Definition add_seat (seat : Seat) : M string :=
  seats ← get_seats;
  for_ seats (λ a,
    if (get_number a =? get_number seat) && (get_row a =? get_row seat)
    then raise (ValueError "The seat is already registered in the hall.")
    else mret tt);;
  seats ← get_seats;
  match seats with
  | [] => mret tt
  | first_seat :: _ =>
      let last_seat := List.last seats first_seat in
      let last_row := get_row last_seat in
      if get_row seat >? last_row
      then raise (ValueError (row_message (get_row first_seat) last_row))
      else
        let last_number := get_number last_seat in
        if negb (get_number seat =? last_number + 1)
        then raise (ValueError (number_message last_number))
        else mret tt
  end;;
  seats ← get_seats;
  let position := find_position seat seats 0%nat in
  insert_at position seat;;
  mret ("Seat " +:+ str_int (get_number seat) +:+ " in row "
        +:+ str_int (get_row seat) +:+ " has been added.").

Section Show.

(** [repr(x)] for a float, the shortest digits that read back as [x]
    ("8.0" for 8.0); the digits are left open. *)
Variable repr_float : float → string.

(** [str(x)] for a price, as the f-string of [show_seats] prints it:
    "10" for the int 10, "10.0" for the float 10.0. *)
Definition str_num (x : num) : string :=
  match x with
  | NInt z => str_int z
  | NFloat f => repr_float f
  end.

Definition seat_line (base_price : num) (seat : Seat) : string :=
  let status := if is_reserved seat then "Reserved" else "Available" in
  let price := if is_reserved seat then get_price seat else base_price in
  "Seat " +:+ str_int (get_number seat) +:+ ", row "
  +:+ str_int (get_row seat) +:+ ": " +:+ status +:+ ", Price: "
  +:+ str_num price +:+ "€".

(** [show_seats], with every parameter bound. *)
Definition show_seats (day_of_week : Z) (base_price : num) : M string :=
  let all_seats := [] in
  base_price ←
    (if day_of_week =? 2
     then lift (mul_float base_price lit_0_8) else mret base_price);
  seats ← get_seats;
  let all_seats :=
    foldl (λ all_seats seat, all_seats ++ [seat_line base_price seat])
          all_seats seats in
  mret (join newline all_seats).

End Show.

(** ** Default arguments

    [day_of_week=datetime.today().weekday()] is evaluated once, when the
    [def] statement runs; [definition_time] records what the clock gave
    then, for each of the two methods that have the default. *)
Record definition_time : Type := {
  reserve_seat_default_day : Z;
  show_seats_default_day : Z
}.

(** A call of [reserve_seat], where [day_of_week] and [base_price] may be
    left out. *)
Definition call_reserve_seat (t : definition_time) (number row age : Z)
    (day_of_week : option Z) (base_price : option num) : M string :=
  reserve_seat number row age
    (default (reserve_seat_default_day t) day_of_week)
    (default ten base_price).

(** A call of [show_seats], likewise. *)
Definition call_show_seats (repr_float : float → string)
    (t : definition_time)
    (day_of_week : option Z) (base_price : option num) : M string :=
  show_seats repr_float
    (default (show_seats_default_day t) day_of_week)
    (default ten base_price).

(** ** The size methods

    [get_rows] and [get_seats_per_row]: [len(set([...]))] over the rows,
    and over the numbers, of the seats. *)
Definition get_rows : M Z :=
  seats ← get_seats;
  mret (Z.of_nat (size (list_to_set (get_row <$> seats) : gset Z))).

Definition get_seats_per_row : M Z :=
  seats ← get_seats;
  mret (Z.of_nat (size (list_to_set (get_number <$> seats) : gset Z))).

(** ** The script

    One round of the [while] loop of the script, from the three integers
    that [int(input(...))] returned to the text handed to [print]: the
    three range checks, then [reserve_seat] with the day and the base
    price left out.  [1 <= x <= f()] calls [f] only when [1 <= x]. *)
Definition reserve_round (t : definition_time)
    (client_number client_row client_age : Z) : M string :=
  in_range ←
    (if 1 <=? client_number
     then seats_per_row ← get_seats_per_row;
          mret (client_number <=? seats_per_row)
     else mret false);
  if negb in_range then raise (ValueError "Invalid seat number.")
  else
    in_range ←
      (if 1 <=? client_row
       then rows ← get_rows; mret (client_row <=? rows)
       else mret false);
    if negb in_range then raise (ValueError "Invalid seat row.")
    else
      if negb ((0 <=? client_age) && (client_age <=? 120))
      then raise (ValueError "Invalid age.")
      else call_reserve_seat t client_number client_row client_age None None.

End Cinema.

Export Cinema.

(* ===================================================================== *)
(** * The vocabulary of the specification                                 *)
(* ===================================================================== *)

Module Spec.

(** The names below follow the words of the specification; the lemmas
    relate them to the definitions of [Cinema]. *)

(** ** The error taxonomy.  The code raises [ValueError] throughout; the
    kind of an error is told by its message. *)

Definition NotFound : exn := ValueError "The seat does not exist.".
Definition AlreadyReserved : exn := ValueError "The seat is already reserved.".
Definition NotReserved : exn := ValueError "The seat is not reserved.".
Definition DuplicateSeat : exn :=
  ValueError "The seat is already registered in the hall.".
Definition RowOutOfRange (first_row last_row : Z) : exn :=
  ValueError (row_message first_row last_row).
Definition NonSequentialSeat (last_number : Z) : exn :=
  ValueError (number_message last_number).

Definition InvalidArgument (e : exn) : Prop :=
  e = ValueError "The seat number must be a positive integer."
  ∨ e = ValueError "The seat row must be a positive integer."
  ∨ e = ValueError "The number of seats in each row must be a positive integer."
  ∨ e = ValueError "The total number of rows must be a positive integer.".

(** An argument that is not an integer, or an integer that is not
    positive. *)
Definition not_positive_int (v : pyobj) : Prop :=
  match as_int v with
  | Some z => z ≤ 0
  | None => True
  end.

(** ** Seats of a hall *)

Definition has_key (number row : Z) (s : Seat) : Prop :=
  get_number s = number ∧ get_row s = row.

Definition key (s : Seat) : Z * Z := (get_number s, get_row s).

(** No seat of [h] has that number and row. *)
Definition absent (h : Hall) (number row : Z) : Prop :=
  Forall (λ s, ¬ has_key number row s) h.

(** [seat] is the seat of [h] with that number and row, at position [i]
    (the first one, should the list hold several). *)
Definition seat_at (h : Hall) (number row : Z) (i : nat) (seat : Seat)
  : Prop :=
  h !! i = Some seat ∧ has_key number row seat
  ∧ absent (take i h) number row.

(** Some seat of [h] has that number and row. *)
Definition present (h : Hall) (number row : Z) : Prop :=
  Exists (has_key number row) h.

(** ** The order of the seat sequence: by row, then by number. *)
Definition seat_lt (a b : Seat) : Prop :=
  get_row a < get_row b
  ∨ (get_row a = get_row b ∧ get_number a < get_number b).

Definition sorted (h : Hall) : Prop := StronglySorted seat_lt h.

Definition unique_keys (h : Hall) : Prop := NoDup (key <$> h).

(** ** Prices *)

(** The price of a reservation, for a base price whose value as a float
    is [b]: the base price as it is, or [b] times 0.8 on a Wednesday,
    times 0.7 above 65. *)
Definition discounted (base_price : num) (b : float) (day_of_week age : Z)
  : num :=
  match bool_decide (day_of_week = 2), bool_decide (65 < age) with
  | false, false => base_price
  | true, false => NFloat (fmul b lit_0_8)
  | false, true => NFloat (fmul b lit_0_7)
  | true, true => NFloat (fmul (fmul b lit_0_8) lit_0_7)
  end.

(** The same, with the conversion that a multiplication makes of an
    [int], and the error it may raise. *)
Definition reservation_price (base_price : num) (day_of_week age : Z)
  : result num :=
  match bool_decide (day_of_week = 2), bool_decide (65 < age) with
  | false, false => Ok base_price
  | true, false => mul_float base_price lit_0_8
  | false, true => mul_float base_price lit_0_7
  | true, true =>
      match mul_float base_price lit_0_8 with
      | Ok price => mul_float price lit_0_7
      | Raise e => Raise e
      end
  end.

(** The base price [show_seats] displays on a day. *)
Definition shown_price (base_price : num) (day_of_week : Z) : result num :=
  if bool_decide (day_of_week = 2) then mul_float base_price lit_0_8
  else Ok base_price.

(** The price [show_seats] displays for a seat, [shown] being the base
    price of the day. *)
Definition displayed_price (shown : num) (seat : Seat) : num :=
  if is_reserved seat then get_price seat else shown.

(** The line [show_seats] prints for a seat. *)
Definition displayed_line (repr_float : float → string)
    (shown : num) (seat : Seat) : string :=
  "Seat " +:+ str_int (get_number seat) +:+ ", row "
  +:+ str_int (get_row seat) +:+ ": "
  +:+ (if is_reserved seat then "Reserved" else "Available")
  +:+ ", Price: " +:+ str_num repr_float (displayed_price shown seat)
  +:+ "€".

(** ** Confirmation messages *)

Definition reserved_message (number row : Z) (price_2f : string) : string :=
  "Seat " +:+ str_int number +:+ " in row " +:+ str_int row
  +:+ " has been reserved. Price: " +:+ price_2f +:+ "€".

Definition added_message (seat : Seat) : string :=
  "Seat " +:+ str_int (get_number seat) +:+ " in row "
  +:+ str_int (get_row seat) +:+ " has been added.".

(** ** The seats of a new hall *)

(** The seats of one row, and of a grid of rows. *)
Definition row_seats (numbers : list Z) (row : Z) : list Seat :=
  (λ number, mkSeat number row false zero) <$> numbers.

Definition grid (rows numbers : list Z) : list Seat :=
  flat_map (row_seats numbers) rows.

(** ** Operations on a hall, and their runs *)

Inductive op : Type :=
| Reserve (number row age day_of_week : Z) (base_price : num)
| Cancel (number row : Z)
| AddSeat (seat : Seat).

Definition exec (o : op) : M string :=
  match o with
  | Reserve number row age day_of_week base_price =>
      reserve_seat number row age day_of_week base_price
  | Cancel number row => cancel_reservation number row
  | AddSeat seat => add_seat seat
  end.

(** The hall after a sequence of operations, failed ones included. *)
Definition run (ops : list op) (h : Hall) : Hall :=
  foldl (λ h o, snd (exec o h)) h ops.

End Spec.

Export Spec.

(* ===================================================================== *)
(** * Further vocabulary                                                  *)
(* ===================================================================== *)

Module Derived.

(** A seat as [Seat(number, row)] returns it: positive number and row,
    unreserved, price 0. *)
Definition fresh_seat (s : Seat) : Prop :=
  0 < get_number s ∧ 0 < get_row s
  ∧ is_reserved s = false ∧ get_price s = zero.

(** An operation whose seat, if it adds one, is fresh from [Seat(...)]. *)
Definition adds_fresh (o : op) : Prop :=
  match o with
  | AddSeat seat => fresh_seat seat
  | _ => True
  end.

(** A seat with positive number and row whose price is 0 unless it is
    reserved. *)
Definition tidy_seat (s : Seat) : Prop :=
  0 < get_number s ∧ 0 < get_row s
  ∧ (is_reserved s = false → get_price s = zero).

(** The rows, and the numbers, that occur in a hall. *)
Definition row_set (h : Hall) : gset Z := list_to_set (get_row <$> h).
Definition number_set (h : Hall) : gset Z := list_to_set (get_number <$> h).

(** The shape that operations keep: some seat, the rows [1..rows], and at
    least the numbers [1..seats_per_row]. *)
Definition shape_kept (rows seats_per_row : Z) (h : Hall) : Prop :=
  h ≠ []
  ∧ row_set h = list_to_set (range 1 (rows + 1))
  ∧ (list_to_set (range 1 (seats_per_row + 1)) : gset Z) ⊆ number_set h.

(** The seat found, without its position. *)
Definition found_seat (r : result (option (nat * Seat))) : option Seat :=
  match r with
  | Ok (Some (_, s)) => Some s
  | _ => None
  end.

End Derived.

Export Derived.

(** Unfolding the monad. *)
Ltac run_M :=
  unfold mbind, M_bind, mret, M_ret, raise, lift, get_seats, set_price,
    set_reserved, insert_at, append; cbn beta iota.

(* ===================================================================== *)
(** * The runtime: literals and formats                                   *)
(* ===================================================================== *)

Section Runtime.

(** The literals are the correctly rounded quotients 8/10 and 7/10. *)
Example lit_0_8_rounded :
  SFdiv prec emax (float_of_Z 8) (float_of_Z 10) = lit_0_8.
Proof. vm_compute. reflexivity. Qed.

Example lit_0_7_rounded :
  SFdiv prec emax (float_of_Z 7) (float_of_Z 10) = lit_0_7.
Proof. vm_compute. reflexivity. Qed.

(** They are within half a unit in the last place of the decimals:
    [|m / 2^53 - d / 10| <= 2^-54]. *)
Example lit_0_8_nearest : Z.abs (10 * 7205759403792794 - 8 * 2 ^ 53) ≤ 5.
Proof. vm_compute. discriminate. Qed.

Example lit_0_7_nearest : Z.abs (10 * 6305039478318694 - 7 * 2 ^ 53) ≤ 5.
Proof. vm_compute. discriminate. Qed.

Example format_2f_examples :
  format_2f (float_of_Z 7) = "7.00"
  ∧ format_2f (fmul (fmul (float_of_Z 10) lit_0_8) lit_0_7) = "5.60"
  ∧ format_2f (S754_finite false 1 (-3)) = "0.12"
  ∧ format_2f (S754_finite false 3 (-3)) = "0.38"
  ∧ format_2f (S754_finite true 1 (-10)) = "-0.00"
  ∧ format_2f_num zero = Ok "0.00"
  ∧ format_2f_num ten = Ok "10.00".
Proof. repeat split; vm_compute; reflexivity. Qed.

(** An [int] converts when its nearest float is below [2^1024]; the
    largest float does, [2^1024] and [10^400] do not. *)
Example float_of_int_examples :
  float_of_int 10 = Ok (S754_finite false 5629499534213120 (-49))
  ∧ float_of_int (2 ^ 1024 - 2 ^ 971)
    = Ok (S754_finite false 9007199254740991 971)
  ∧ float_of_int (2 ^ 1024 - 2 ^ 970) = Raise int_too_large
  ∧ float_of_int (2 ^ 1024) = Raise int_too_large
  ∧ float_of_int (10 ^ 400) = Raise int_too_large
  ∧ float_of_int (- 10 ^ 400) = Raise int_too_large.
Proof. repeat split; vm_compute; reflexivity. Qed.

(** A float is its own value, and every product is a float. *)
Lemma mul_float_to_float (x : num) (c : float) (p : num) :
  mul_float x c = Ok p → ∃ f, p = NFloat f ∧ to_float p = Ok f.
Proof.
  unfold mul_float. destruct (to_float x); [|done].
  intros [= <-]. eauto.
Qed.

Lemma mul_float_value (x : num) (b c : float) :
  to_float x = Ok b → mul_float x c = Ok (NFloat (fmul b c)).
Proof. unfold mul_float. by intros ->. Qed.

Lemma two_digits_length (k : Z) :
  0 ≤ k < 100 → String.length (two_digits k) = 2%nat.
Proof.
  intros Hk.
  assert (bool_decide
            (Forall (λ k, String.length (two_digits k) = 2%nat) (seqZ 0 100))
          = true) as Hd by (vm_compute; reflexivity).
  apply bool_decide_eq_true_1 in Hd.
  rewrite Forall_forall in Hd. apply Hd, elem_of_seqZ. lia.
Qed.

(** A finite float prints as a sign, an integer part, a point and two
    digits. *)
Lemma format_2f_finite (s : bool) (m : positive) (e : Z) :
  ∃ int_part frac_part,
    format_2f (S754_finite s m e)
    = sign_str s +:+ int_part +:+ "." +:+ frac_part
    ∧ String.length frac_part = 2%nat.
Proof.
  eexists _, _. split; [reflexivity|].
  apply two_digits_length, Z.mod_pos_bound. lia.
Qed.

End Runtime.

(* ===================================================================== *)
(** * Construction                                                        *)
(* ===================================================================== *)

Section Construction.

Lemma Seat_init_pos (number row : Z) :
  0 < number → 0 < row →
  Seat_init (PyInt number) (PyInt row) = Ok (mkSeat number row false zero).
Proof.
  intros Hn Hr. unfold Seat_init. simpl.
  destruct (Z.leb_spec number 0); [lia|].
  destruct (Z.leb_spec row 0); [lia|]. reflexivity.
Qed.

Lemma Seat_init_invalid (number row : pyobj) :
  not_positive_int number ∨ not_positive_int row →
  ∃ e, Seat_init number row = Raise e ∧ InvalidArgument e.
Proof.
  unfold not_positive_int, Seat_init, InvalidArgument.
  intros H.
  destruct (as_int number) as [n|]; [|eauto].
  destruct (Z.leb_spec n 0); [eauto|].
  destruct (as_int row) as [r|]; [|eauto 6].
  destruct (Z.leb_spec r 0); [eauto 6|].
  destruct H; lia.
Qed.

Lemma inner_loop (numbers : list Z) (row : Z) (h : Hall) :
  0 < row → Forall (λ n, 0 < n) numbers →
  for_ numbers (λ number,
      seat ← lift (Seat_init (PyInt number) (PyInt row)); append seat) h
  = (Ok tt, h ++ row_seats numbers row).
Proof.
  intros Hrow Hpos. revert h.
  induction Hpos as [|n ns Hn _ IH]; intros h.
  - simpl. by rewrite app_nil_r.
  - cbn [for_]. unfold mbind at 1, M_bind.
    unfold mbind at 1, M_bind, lift, append.
    rewrite Seat_init_pos by done.
    rewrite IH. unfold row_seats. cbn [fmap list_fmap].
    by rewrite <- app_assoc.
Qed.

Lemma outer_loop (rows numbers : list Z) (h : Hall) :
  Forall (λ r, 0 < r) rows → Forall (λ n, 0 < n) numbers →
  for_ rows (λ row,
    for_ numbers (λ number,
      seat ← lift (Seat_init (PyInt number) (PyInt row)); append seat)) h
  = (Ok tt, h ++ grid rows numbers).
Proof.
  intros Hrows Hnum. revert h.
  induction Hrows as [|r rs Hr _ IH]; intros h.
  - simpl. by rewrite app_nil_r.
  - cbn [for_]. unfold mbind at 1, M_bind.
    rewrite inner_loop by done. rewrite IH.
    unfold grid. cbn [flat_map]. by rewrite <- app_assoc.
Qed.

Lemma range_pos (hi : Z) : Forall (λ n, 0 < n) (range 1 hi).
Proof. unfold range. apply Forall_seqZ. lia. Qed.

Lemma new_CinemaHall_grid (rows spr : Z) :
  0 < rows → 0 < spr →
  new_CinemaHall (PyInt rows) (PyInt spr)
  = Ok (grid (range 1 (rows + 1)) (range 1 (spr + 1))).
Proof.
  intros Hr Hs. unfold new_CinemaHall, CinemaHall_init. simpl.
  destruct (Z.leb_spec spr 0); [lia|].
  destruct (Z.leb_spec rows 0); [lia|].
  by rewrite outer_loop by apply range_pos.
Qed.

Lemma new_CinemaHall_invalid (rows spr : pyobj) :
  not_positive_int rows ∨ not_positive_int spr →
  ∃ e, new_CinemaHall rows spr = Raise e ∧ InvalidArgument e.
Proof.
  unfold not_positive_int, new_CinemaHall, CinemaHall_init, InvalidArgument.
  intros H.
  destruct (as_int spr) as [s|]; [|simpl; eauto 6].
  destruct (Z.leb_spec s 0); [simpl; eauto 6|].
  destruct (as_int rows) as [r|]; [|simpl; eauto 6].
  destruct (Z.leb_spec r 0); [simpl; eauto 6|].
  destruct H; lia.
Qed.

Lemma length_grid (rows numbers : list Z) :
  length (grid rows numbers) = (length rows * length numbers)%nat.
Proof.
  unfold grid. apply flat_map_constant_length.
  intros r _. unfold row_seats. by rewrite length_fmap.
Qed.

Lemma grid_fresh (rows numbers : list Z) :
  Forall (λ s, is_reserved s = false ∧ get_price s = zero)
         (grid rows numbers).
Proof.
  apply Forall_forall. intros s Hs. apply list_elem_of_In in Hs.
  unfold grid in Hs. apply in_flat_map in Hs as (r & _ & Hs).
  apply list_elem_of_In in Hs. unfold row_seats in Hs.
  apply list_elem_of_fmap in Hs as (n & -> & _). done.
Qed.

Lemma seqZ_sorted (m n : Z) : StronglySorted Z.lt (seqZ m n).
Proof.
  destruct (Z.le_gt_cases n 0) as [Hn|Hn].
  { rewrite seqZ_nil by done. constructor. }
  rewrite <- (Z2Nat.id n) by lia. generalize (Z.to_nat n) as k. clear.
  intros k. revert m. induction k as [|k IH]; intros m.
  { rewrite seqZ_nil by done. constructor. }
  rewrite seqZ_cons by lia. constructor.
  - replace (Z.pred (Z.of_nat (S k))) with (Z.of_nat k) by lia. apply IH.
  - apply Forall_seqZ. lia.
Qed.

Lemma row_seats_sorted (numbers : list Z) (row : Z) :
  StronglySorted Z.lt numbers → sorted (row_seats numbers row).
Proof.
  apply StronglySorted_fmap. intros x y Hxy. right. simpl. lia.
Qed.

Lemma grid_sorted (rows numbers : list Z) :
  StronglySorted Z.lt rows → StronglySorted Z.lt numbers →
  sorted (grid rows numbers).
Proof.
  intros Hrows Hnum. unfold grid, sorted.
  induction Hrows as [|r rs _ IH Hr]; cbn [flat_map]; [constructor|].
  apply StronglySorted_app_2; [|by apply row_seats_sorted|done].
  intros a b Ha Hb. left.
  apply list_elem_of_fmap in Ha as (n & -> & _).
  apply list_elem_of_In, in_flat_map in Hb as (r' & Hr' & Hb).
  apply list_elem_of_In, list_elem_of_fmap in Hb as (n' & -> & _).
  simpl. rewrite Forall_forall in Hr. apply Hr. by apply list_elem_of_In.
Qed.

End Construction.

(** C2.  For integers [rows > 0] and [seats_per_row > 0] the constructor
    yields a hall of exactly [rows * seats_per_row] seats, each unreserved
    with price 0, in ascending (row, number) order; with an argument that
    is not an integer or not positive it raises an InvalidArgument error. *)
Theorem new_CinemaHall_spec :
  (∀ rows seats_per_row : Z, 0 < rows → 0 < seats_per_row →
     ∃ h, new_CinemaHall (PyInt rows) (PyInt seats_per_row) = Ok h
          ∧ Z.of_nat (length h) = rows * seats_per_row
          ∧ Forall (λ s, is_reserved s = false ∧ get_price s = zero) h
          ∧ sorted h)
  ∧ (∀ rows seats_per_row : pyobj,
       not_positive_int rows ∨ not_positive_int seats_per_row →
       ∃ e, new_CinemaHall rows seats_per_row = Raise e ∧ InvalidArgument e).
Proof.
  split; [|apply new_CinemaHall_invalid].
  intros rows spr Hr Hs. eexists. split; [by apply new_CinemaHall_grid|].
  split; [|split].
  - rewrite length_grid. unfold range. rewrite !length_seqZ. lia.
  - apply grid_fresh.
  - apply grid_sorted; apply seqZ_sorted.
Qed.

Lemma new_CinemaHall_spec_witness :
  (∃ h, new_CinemaHall (PyInt 5) (PyInt 10) = Ok h
        ∧ Z.of_nat (length h) = 5 * 10
        ∧ Forall (λ s, is_reserved s = false ∧ get_price s = zero) h
        ∧ sorted h)
  ∧ (∃ e, new_CinemaHall (PyInt 0) (PyStr "ten") = Raise e
          ∧ InvalidArgument e).
Proof.
  split.
  - apply (proj1 new_CinemaHall_spec 5 10); lia.
  - apply (proj2 new_CinemaHall_spec (PyInt 0) (PyStr "ten")).
    left. unfold not_positive_int. simpl. lia.
Defined.

(* ===================================================================== *)
(** * Finding a seat                                                      *)
(* ===================================================================== *)

Section Search.

Lemma key_test_spec (a : Seat) (number row : Z) :
  (get_number a =? number) && (get_row a =? row) = true
  ↔ has_key number row a.
Proof. unfold has_key. rewrite andb_true_iff, !Z.eqb_eq. done. Qed.

Lemma search_from_absent (k : nat) (h : Hall) (number row : Z) :
  absent h number row → search_from k h number row = None.
Proof.
  intros Habs. revert k.
  induction Habs as [|a h Ha _ IH]; intros k; [done|].
  cbn [search_from].
  destruct ((get_number a =? number) && (get_row a =? row)) eqn:E.
  - by apply key_test_spec in E.
  - apply IH.
Qed.

Lemma search_from_seat_at (k : nat) (h : Hall) (number row : Z)
    (i : nat) (seat : Seat) :
  seat_at h number row i seat →
  search_from k h number row = Some ((k + i)%nat, seat).
Proof.
  revert k i. induction h as [|a h IH]; intros k i (Hi & Hkey & Habs).
  { done. }
  cbn [search_from]. destruct i as [|i].
  - simpl in Hi. injection Hi as ->.
    apply key_test_spec in Hkey. rewrite Hkey.
    by rewrite Nat.add_0_r.
  - simpl in Hi, Habs. apply Forall_cons in Habs as [Ha Habs].
    destruct ((get_number a =? number) && (get_row a =? row)) eqn:E.
    { by apply key_test_spec in E. }
    rewrite (IH (S k) i) by done. do 2 f_equal. lia.
Qed.

(** A seat is there or it is not. *)
Lemma seat_cases (h : Hall) (number row : Z) :
  absent h number row ∨ ∃ i seat, seat_at h number row i seat.
Proof.
  induction h as [|a h IH]; [left; constructor|].
  destruct ((get_number a =? number) && (get_row a =? row)) eqn:E.
  - right. exists 0%nat, a. apply key_test_spec in E.
    repeat split; try apply E. constructor.
  - assert (¬ has_key number row a) as Ha.
    { intros Hk. apply key_test_spec in Hk. congruence. }
    destruct IH as [IH|(i & seat & Hi & Hkey & Habs)].
    + left. by constructor.
    + right. exists (S i), seat. repeat split; try apply Hkey; [done|].
      simpl. by constructor.
Qed.

Lemma search_from_None (h : Hall) (number row : Z) :
  search_from 0 h number row = None ↔ absent h number row.
Proof.
  split; [|apply search_from_absent].
  intros Hs. destruct (seat_cases h number row) as [|(i & seat & Hat)]; [done|].
  rewrite (search_from_seat_at 0 _ _ _ _ _ Hat) in Hs. done.
Qed.

Lemma search_from_Some (h : Hall) (number row : Z) (i : nat) (seat : Seat) :
  search_from 0 h number row = Some (i, seat) ↔ seat_at h number row i seat.
Proof.
  split; [|apply (search_from_seat_at 0)].
  intros Hs. destruct (seat_cases h number row) as [Habs|(j & s & Hat)].
  - rewrite search_from_absent in Hs by done. done.
  - rewrite (search_from_seat_at 0 _ _ _ _ _ Hat) in Hs.
    by injection Hs as <- <-.
Qed.

Lemma alter_lookup {A} (f : A → A) (l : list A) (i : nat) (x : A) :
  l !! i = Some x → alter f i l = <[i := f x]> l.
Proof.
  revert i. induction l as [|a l IH]; intros [|i] Hi; try done.
  - simpl in Hi. by injection Hi as ->.
  - simpl. f_equal. by apply IH.
Qed.

End Search.

(* ===================================================================== *)
(** * Reserving and cancelling                                            *)
(* ===================================================================== *)

Section Reservation.

(** The two discounts of [reserve_seat], run before anything is stored. *)
Lemma price_steps {A} (base_price : num) (day_of_week age : Z)
    (k : num → M A) (h : Hall) :
  (price ← (if day_of_week =? 2
            then lift (mul_float base_price lit_0_8) else mret base_price);
   price ← (if age >? 65
            then lift (mul_float price lit_0_7) else mret price);
   k price) h
  = match reservation_price base_price day_of_week age with
    | Ok price => k price h
    | Raise e => (Raise e, h)
    end.
Proof.
  unfold reservation_price. rewrite Z.gtb_ltb.
  destruct (Z.eqb_spec day_of_week 2), (Z.ltb_spec 65 age);
    repeat case_bool_decide; try lia; run_M.
  - destruct (mul_float base_price lit_0_8) as [p|err]; [|done].
    by destruct (mul_float p lit_0_7).
  - by destruct (mul_float base_price lit_0_8).
  - by destruct (mul_float base_price lit_0_7).
  - done.
Qed.

(** [reserve_seat], as a function of what [search_seat] finds.  The
    price is stored before it is formatted: the hall is the updated one
    whether the format succeeds or raises. *)
Lemma reserve_seat_eval (h : Hall) (number row age day_of_week : Z)
    (base_price : num) :
  reserve_seat number row age day_of_week base_price h =
  match search_from 0 h number row with
  | None => (Raise NotFound, h)
  | Some (i, seat) =>
      if is_reserved seat then (Raise AlreadyReserved, h)
      else
        match reservation_price base_price day_of_week age with
        | Raise e => (Raise e, h)
        | Ok price =>
            (match format_2f_num price with
             | Ok price_2f => Ok (reserved_message number row price_2f)
             | Raise e => Raise e
             end,
             alter (with_reserved true) i (alter (with_price price) i h))
        end
  end.
Proof.
  unfold reserve_seat, search_seat.
  unfold mbind at 1, M_bind. unfold mbind at 1, M_bind, get_seats.
  unfold mret at 1, M_ret.
  destruct (search_from 0 h number row) as [[i seat]|]; [|done].
  destruct (is_reserved seat); [done|]. cbn [negb]. cbn zeta.
  rewrite price_steps.
  destruct (reservation_price base_price day_of_week age) as [price|e];
    [|done].
  run_M. by destruct (format_2f_num price).
Qed.

Lemma cancel_reservation_eval (h : Hall) (number row : Z) :
  cancel_reservation number row h =
  match search_from 0 h number row with
  | None => (Raise NotFound, h)
  | Some (i, seat) =>
      if is_reserved seat
      then (Ok ("Reservation for seat " +:+ str_int number +:+ " in row "
                +:+ str_int row +:+ " has been canceled."),
            alter (with_price zero) i (alter (with_reserved false) i h))
      else (Raise NotReserved, h)
  end.
Proof.
  unfold cancel_reservation, search_seat. run_M.
  destruct (search_from 0 h number row) as [[i seat]|]; [|done].
  by destruct (is_reserved seat).
Qed.

(** With a base price that has a float value, the discounts go through
    and the price can be formatted. *)
Lemma reservation_price_discounted (base_price : num) (b : float)
    (day_of_week age : Z) :
  to_float base_price = Ok b →
  reservation_price base_price day_of_week age
  = Ok (discounted base_price b day_of_week age).
Proof.
  intros Hb. unfold reservation_price, discounted.
  destruct (bool_decide (day_of_week = 2)), (bool_decide (65 < age));
    try done; rewrite ?(mul_float_value _ _ _ Hb); done.
Qed.

Lemma format_discounted (base_price : num) (b : float)
    (day_of_week age : Z) :
  to_float base_price = Ok b →
  ∃ price_2f,
    format_2f_num (discounted base_price b day_of_week age) = Ok price_2f.
Proof.
  intros Hb. unfold discounted, format_2f_num.
  destruct (bool_decide (day_of_week = 2)), (bool_decide (65 < age));
    cbn [to_float]; rewrite ?Hb; eauto.
Qed.

(** The arithmetic raises only the conversion's error. *)
Lemma mul_float_raise (x : num) (c : float) (e : exn) :
  mul_float x c = Raise e → e = int_too_large.
Proof.
  unfold mul_float. destruct x as [z|f]; cbn [to_float]; [|done].
  unfold float_of_int. destruct (float_of_Z z); congruence.
Qed.

Lemma reservation_price_raise (base_price : num) (day_of_week age : Z)
    (e : exn) :
  reservation_price base_price day_of_week age = Raise e →
  e = int_too_large.
Proof.
  unfold reservation_price.
  destruct (bool_decide (day_of_week = 2)), (bool_decide (65 < age));
    try done; try apply mul_float_raise.
  destruct (mul_float base_price lit_0_8) as [p|err] eqn:Hp.
  - apply mul_float_raise.
  - intros [= <-]. by apply mul_float_raise in Hp.
Qed.

Lemma format_2f_num_raise (price : num) (e : exn) :
  format_2f_num price = Raise e → e = int_too_large.
Proof.
  unfold format_2f_num. destruct price as [z|f]; cbn [to_float]; [|done].
  unfold float_of_int. destruct (float_of_Z z); congruence.
Qed.

(** The hall after [reserve_seat]: as it was, or with the seat reserved
    at the price of the reservation. *)
Lemma reserve_seat_state (h : Hall) (number row age day_of_week : Z)
    (base_price : num) :
  snd (reserve_seat number row age day_of_week base_price h) = h
  ∨ ∃ i seat price,
      seat_at h number row i seat ∧ is_reserved seat = false
      ∧ reservation_price base_price day_of_week age = Ok price
      ∧ snd (reserve_seat number row age day_of_week base_price h)
        = alter (with_reserved true ∘ with_price price) i h.
Proof.
  rewrite reserve_seat_eval.
  destruct (search_from 0 h number row) as [[i seat]|] eqn:Hs; [|by left].
  apply search_from_Some in Hs.
  destruct (is_reserved seat) eqn:Hres; [by left|].
  destruct (reservation_price base_price day_of_week age) as [price|e];
    [|by left].
  right. exists i, seat, price. cbn [snd].
  by rewrite list_alter_alter_eq.
Qed.

(** A [ValueError] of [reserve_seat] comes before anything is stored. *)
Lemma reserve_seat_raise (h h' : Hall) (number row age day_of_week : Z)
    (base_price : num) (msg : string) :
  reserve_seat number row age day_of_week base_price h
  = (Raise (ValueError msg), h') →
  h' = h.
Proof.
  rewrite reserve_seat_eval.
  destruct (search_from 0 h number row) as [[i seat]|]; [|congruence].
  destruct (is_reserved seat); [congruence|].
  destruct (reservation_price base_price day_of_week age) as [price|e] eqn:Hp.
  - destruct (format_2f_num price) as [t|e] eqn:Hf; [done|].
    apply format_2f_num_raise in Hf. by intros [= -> _].
  - congruence.
Qed.

Lemma ten_times_0_7 : fmul (float_of_Z 10) lit_0_7 = float_of_Z 7.
Proof. vm_compute. reflexivity. Qed.

Lemma to_float_ten : to_float ten = Ok (float_of_Z 10).
Proof. vm_compute. reflexivity. Qed.

End Reservation.

(** C1, as stated, fails: reserving the free seat of a one-seat hall on a
    Wednesday at the base price [10**400], an [int] beyond the floats,
    raises [OverflowError] at the multiplication by 0.8. *)
Lemma reserve_seat_int_out_of_range :
  ¬ (∀ (h : Hall) (number row age day_of_week : Z) (base_price : num)
       (i : nat) (seat : Seat),
       seat_at h number row i seat → is_reserved seat = false →
       ∃ msg h',
         reserve_seat number row age day_of_week base_price h = (Ok msg, h')).
Proof.
  intros H.
  destruct (H [mkSeat 1 1 false zero] 1 1 30 2 (NInt (10 ^ 400)) 0%nat
              (mkSeat 1 1 false zero)) as (msg & h' & Heq).
  - split; [reflexivity|]. split; [split; reflexivity|constructor].
  - reflexivity.
  - vm_compute in Heq. discriminate Heq.
Qed.

(** C1, amended.  Reserving an existing unreserved seat at a base price
    that is a float, or an int with a float value, succeeds: the price is
    the base price, or its float value times 0.8 on day 2 (Wednesday),
    times 0.7 for an age above 65, both when both apply; the seat becomes
    reserved at that price, the other seats stay as they are, and the
    message names the seat and the price with two decimals.  With base
    price 10, age 80 and a day other than 2 the stored price is exactly
    7.0. *)
Theorem reserve_seat_spec (h : Hall) (number row age day_of_week : Z)
    (base_price : num) (b : float) (i : nat) (seat : Seat) :
  seat_at h number row i seat →
  is_reserved seat = false →
  to_float base_price = Ok b →
  ∃ price price_2f,
    price = discounted base_price b day_of_week age
    ∧ format_2f_num price = Ok price_2f
    ∧ reserve_seat number row age day_of_week base_price h
      = (Ok ("Seat " +:+ str_int number +:+ " in row " +:+ str_int row
             +:+ " has been reserved. Price: " +:+ price_2f +:+ "€"),
         <[i := mkSeat number row true price]> h)
    ∧ (base_price = ten → age = 80 → day_of_week ≠ 2 →
       price = NFloat (float_of_Z 7)).
Proof.
  intros Hat Hfree Hb.
  destruct (format_discounted base_price b day_of_week age Hb)
    as [price_2f Hfmt].
  eexists _, price_2f. split; [reflexivity|]. split; [done|]. split.
  - rewrite reserve_seat_eval.
    apply search_from_Some in Hat as Hs. rewrite Hs, Hfree.
    rewrite (reservation_price_discounted _ _ _ _ Hb), Hfmt.
    destruct Hat as (Hi & [Hn Hr] & _).
    rewrite list_alter_alter_eq, (alter_lookup _ _ _ _ Hi).
    unfold reserved_message, with_reserved, with_price, compose. simpl.
    by rewrite Hn, Hr.
  - intros -> -> Hd. rewrite to_float_ten in Hb. injection Hb as <-.
    unfold discounted.
    repeat case_bool_decide; try lia.
    exact (f_equal NFloat ten_times_0_7).
Qed.

Lemma reserve_seat_spec_witness :
  ∃ price price_2f,
    price = discounted ten (float_of_Z 10) 1 80
    ∧ format_2f_num price = Ok price_2f
    ∧ reserve_seat 2 1 80 1 ten
        [mkSeat 1 1 false zero; mkSeat 2 1 false zero]
      = (Ok ("Seat " +:+ str_int 2 +:+ " in row " +:+ str_int 1
             +:+ " has been reserved. Price: " +:+ price_2f +:+ "€"),
         <[1%nat := mkSeat 2 1 true price]>
           [mkSeat 1 1 false zero; mkSeat 2 1 false zero])
    ∧ (ten = ten → 80 = 80 → 1 ≠ 2 → price = NFloat (float_of_Z 7)).
Proof.
  apply (reserve_seat_spec [mkSeat 1 1 false zero; mkSeat 2 1 false zero]
           2 1 80 1 ten (float_of_Z 10) 1%nat (mkSeat 2 1 false zero)).
  - split; [reflexivity|]. split; [split; reflexivity|].
    constructor; [|constructor]. unfold has_key. simpl. lia.
  - reflexivity.
  - vm_compute. reflexivity.
Defined.

(** C5.  [reserve_seat] fails with NotFound exactly when no seat has that
    number and row, and with AlreadyReserved exactly when the seat is there
    and reserved; in that case the hall, and so the seat's price and flag,
    is as before. *)
Theorem reserve_seat_errors (h : Hall) (number row age day_of_week : Z)
    (base_price : num) :
  let r := reserve_seat number row age day_of_week base_price h in
  (fst r = Raise NotFound ↔ absent h number row)
  ∧ (fst r = Raise AlreadyReserved
     ↔ ∃ i seat, seat_at h number row i seat ∧ is_reserved seat = true)
  ∧ (fst r = Raise AlreadyReserved → snd r = h).
Proof.
  cbn zeta. rewrite reserve_seat_eval.
  destruct (search_from 0 h number row) as [[i seat]|] eqn:Hs.
  - apply search_from_Some in Hs as Hat.
    destruct (is_reserved seat) eqn:Hres; cbn [fst snd].
    + split; [|split; [|done]].
      * split; [done|]. intros Habs.
        apply search_from_None in Habs. congruence.
      * split; [eauto|done].
    + assert (∀ e, e = NotFound ∨ e = AlreadyReserved →
                fst (match reservation_price base_price day_of_week age with
                     | Ok price =>
                         (match format_2f_num price with
                          | Ok price_2f =>
                              Ok (reserved_message number row price_2f)
                          | Raise e => Raise e
                          end,
                          alter (with_reserved true) i
                            (alter (with_price price) i h))
                     | Raise e => (Raise e, h)
                     end) ≠ Raise e) as Hne.
      { intros e He Heq.
        destruct (reservation_price base_price day_of_week age)
          as [price|e'] eqn:Hp; cbn [fst] in Heq.
        - destruct (format_2f_num price) as [t|e'] eqn:Hf; [done|].
          apply format_2f_num_raise in Hf. injection Heq as ->.
          by destruct He as [->| ->].
        - apply reservation_price_raise in Hp. injection Heq as ->.
          by destruct He as [->| ->]. }
      split; [|split].
      * split; [intros Heq; by destruct (Hne NotFound (or_introl eq_refl))|].
        intros Habs. apply search_from_None in Habs. congruence.
      * split;
          [intros Heq; by destruct (Hne AlreadyReserved (or_intror eq_refl))|].
        intros (j & s & Hat' & Hs').
        apply search_from_Some in Hat'. congruence.
      * intros Heq. by destruct (Hne AlreadyReserved (or_intror eq_refl)).
  - apply search_from_None in Hs as Habs. cbn [fst snd].
    split; [done|]. split; [|done].
    split; [done|]. intros (j & s & Hat' & _).
    apply search_from_Some in Hat'. congruence.
Qed.

(** C6.  [cancel_reservation] fails with NotFound when the seat is absent
    and with NotReserved when it is there and not reserved; otherwise it
    makes the seat unreserved with price 0, leaves the other seats as they
    are, and returns a confirmation. *)
Theorem cancel_reservation_spec (h : Hall) (number row : Z) :
  (absent h number row →
   cancel_reservation number row h = (Raise NotFound, h))
  ∧ (∀ i seat, seat_at h number row i seat → is_reserved seat = false →
       cancel_reservation number row h = (Raise NotReserved, h))
  ∧ (∀ i seat, seat_at h number row i seat → is_reserved seat = true →
       cancel_reservation number row h
       = (Ok ("Reservation for seat " +:+ str_int number +:+ " in row "
              +:+ str_int row +:+ " has been canceled."),
          <[i := mkSeat number row false zero]> h)).
Proof.
  rewrite cancel_reservation_eval. repeat split.
  - intros Habs. apply search_from_None in Habs. by rewrite Habs.
  - intros i seat Hat Hres. apply search_from_Some in Hat.
    by rewrite Hat, Hres.
  - intros i seat Hat Hres. apply search_from_Some in Hat as Hs.
    rewrite Hs, Hres. destruct Hat as (Hi & [Hn Hr] & _).
    rewrite list_alter_alter_eq, (alter_lookup _ _ _ _ Hi).
    unfold with_reserved, with_price, compose. simpl. by rewrite Hn, Hr.
Qed.

Lemma cancel_reservation_spec_witness :
  cancel_reservation 7 3 [mkSeat 1 1 true ten] = (Raise NotFound, [mkSeat 1 1 true ten])
  ∧ cancel_reservation 1 1 [mkSeat 1 1 false zero]
    = (Raise NotReserved, [mkSeat 1 1 false zero])
  ∧ cancel_reservation 1 1 [mkSeat 1 1 true ten]
    = (Ok ("Reservation for seat " +:+ str_int 1 +:+ " in row "
           +:+ str_int 1 +:+ " has been canceled."),
       <[0%nat := mkSeat 1 1 false zero]> [mkSeat 1 1 true ten]).
Proof.
  split; [|split].
  - apply (proj1 (cancel_reservation_spec [mkSeat 1 1 true ten] 7 3)).
    constructor; [|constructor]. unfold has_key. simpl. lia.
  - apply (proj1 (proj2 (cancel_reservation_spec [mkSeat 1 1 false zero] 1 1))
             0%nat (mkSeat 1 1 false zero)); [|reflexivity].
    split; [reflexivity|]. split; [split; reflexivity|constructor].
  - apply (proj2 (proj2 (cancel_reservation_spec [mkSeat 1 1 true ten] 1 1))
             0%nat (mkSeat 1 1 true ten)); [|reflexivity].
    split; [reflexivity|]. split; [split; reflexivity|constructor].
Defined.

(* ===================================================================== *)
(** * The order of seats                                                  *)
(* ===================================================================== *)

Section Order.

Lemma seat_lt_test (seat a : Seat) :
  (get_row seat <? get_row a)
  || ((get_row seat =? get_row a) && (get_number seat <? get_number a))
  = true
  ↔ seat_lt seat a.
Proof.
  unfold seat_lt.
  rewrite orb_true_iff, andb_true_iff, !Z.ltb_lt, Z.eqb_eq. done.
Qed.

Lemma seat_lt_trans (a b c : Seat) : seat_lt a b → seat_lt b c → seat_lt a c.
Proof. unfold seat_lt. lia. Qed.

Lemma seat_lt_total (a b : Seat) :
  ¬ seat_lt a b → ¬ has_key (get_number a) (get_row a) b → seat_lt b a.
Proof. unfold seat_lt, has_key. lia. Qed.

Lemma seat_lt_key (a a' b b' : Seat) :
  key a = key a' → key b = key b' → seat_lt a b → seat_lt a' b'.
Proof. unfold key, seat_lt. intros [= -> ->] [= -> ->]. done. Qed.

Lemma seat_lt_irrefl (a b : Seat) : key a = key b → ¬ seat_lt a b.
Proof. unfold key, seat_lt. intros [= -> ->]. lia. Qed.

Lemma sorted_unique_keys (h : Hall) : sorted h → unique_keys h.
Proof.
  unfold sorted, unique_keys.
  induction 1 as [|a h _ IH Ha]; cbn [fmap list_fmap]; constructor; [|done].
  intros Hin. apply list_elem_of_fmap in Hin as (b & Hk & Hb).
  rewrite Forall_forall in Ha. by apply (seat_lt_irrefl a b), Ha.
Qed.

Lemma sorted_alter (f : Seat → Seat) (i : nat) (h : Hall) :
  (∀ s, key (f s) = key s) → sorted h → sorted (alter f i h).
Proof.
  intros Hf Hs. revert i. unfold sorted in *.
  induction Hs as [|a h Hh IH Ha]; intros i; [destruct i; constructor|].
  destruct i as [|i]; cbn.
  - constructor; [done|].
    eapply Forall_impl; [exact Ha|]. intros b.
    by apply seat_lt_key.
  - constructor; [apply IH|].
    apply Forall_alter; [done|]. intros b _.
    by apply seat_lt_key.
Qed.

Lemma insert_sorted (seat : Seat) (before after : Hall) :
  sorted (before ++ after) →
  absent (before ++ after) (get_number seat) (get_row seat) →
  Forall (λ a, ¬ seat_lt seat a) before →
  (∀ a, head after = Some a → seat_lt seat a) →
  sorted (before ++ seat :: after).
Proof.
  unfold sorted, absent. intros Hs Habs Hbefore Hafter.
  apply StronglySorted_app in Hs as (Hcross & Hsb & Hsa).
  apply Forall_app in Habs as [Hab _].
  apply StronglySorted_app_2; [|done|].
  - intros a b Ha Hb. apply elem_of_cons in Hb as [->|Hb]; [|by apply Hcross].
    rewrite Forall_forall in Hbefore, Hab.
    apply seat_lt_total; [by apply Hbefore|].
    intros Hk. apply (Hab a Ha). unfold has_key in *. lia.
  - constructor; [done|]. destruct after as [|a after]; [constructor|].
    specialize (Hafter a eq_refl).
    apply StronglySorted_inv in Hsa as [_ Ha].
    constructor; [done|].
    eapply Forall_impl; [exact Ha|]. intros b. by apply seat_lt_trans.
Qed.

(** In a sorted hall no seat is in a row above the row of the last one. *)
Lemma sorted_row_above_absent (h : Hall) (seat last_seat : Seat) :
  sorted h → last h = Some last_seat →
  get_row seat > get_row last_seat →
  absent h (get_number seat) (get_row seat).
Proof.
  unfold sorted, absent. intros Hs Hl Hrow.
  apply last_Some in Hl as [init ->].
  apply StronglySorted_app in Hs as (Hcross & _ & _).
  apply Forall_app. split.
  - apply Forall_forall. intros a Ha [_ Hr].
    assert (seat_lt a last_seat) as Hlt.
    { apply Hcross; [done|]. by apply list_elem_of_singleton. }
    unfold seat_lt in Hlt. lia.
  - constructor; [|constructor]. intros [_ Hr]. lia.
Qed.

End Order.

(* ===================================================================== *)
(** * Adding a seat                                                       *)
(* ===================================================================== *)

Section AddSeat.

Lemma present_absent (h : Hall) (number row : Z) :
  present h number row → absent h number row → False.
Proof.
  unfold present, absent. intros He Ha.
  apply Exists_exists in He as (a & Hin & Hk).
  rewrite Forall_forall in Ha. by apply (Ha a).
Qed.

(** The first loop of [add_seat]. *)
Lemma duplicate_check_absent (seat : Seat) (seats h : Hall) :
  absent seats (get_number seat) (get_row seat) →
  for_ seats (λ a,
    if (get_number a =? get_number seat) && (get_row a =? get_row seat)
    then raise (ValueError "The seat is already registered in the hall.")
    else mret tt) h
  = (Ok tt, h).
Proof.
  induction 1 as [|a seats Ha _ IH]; [done|].
  cbn [for_]. run_M.
  destruct ((get_number a =? get_number seat) && (get_row a =? get_row seat))
    eqn:E.
  - by apply key_test_spec in E.
  - exact IH.
Qed.

Lemma duplicate_check_present (seat : Seat) (seats h : Hall) :
  present seats (get_number seat) (get_row seat) →
  for_ seats (λ a,
    if (get_number a =? get_number seat) && (get_row a =? get_row seat)
    then raise (ValueError "The seat is already registered in the hall.")
    else mret tt) h
  = (Raise DuplicateSeat, h).
Proof.
  unfold present.
  induction seats as [|a seats IH]; intros He; [by apply Exists_nil in He|].
  cbn [for_]. run_M.
  destruct ((get_number a =? get_number seat) && (get_row a =? get_row seat))
    eqn:E; [done|].
  apply Exists_cons in He as [Hk|He].
  - apply key_test_spec in Hk. congruence.
  - by apply IH.
Qed.

(** The second loop: [position] ends as the length of the longest
    prefix that has no seat above [seat]. *)
Lemma find_position_split (seat : Seat) (seats : Hall) (position : nat) :
  ∃ before after,
    seats = before ++ after
    ∧ find_position seat seats position = (position + length before)%nat
    ∧ Forall (λ a, ¬ seat_lt seat a) before
    ∧ (∀ a, head after = Some a → seat_lt seat a).
Proof.
  revert position. induction seats as [|a seats IH]; intros position.
  { exists [], []. simpl. repeat split; [lia|constructor|done]. }
  cbn [find_position].
  destruct ((get_row seat <? get_row a)
            || ((get_row seat =? get_row a)
                && (get_number seat <? get_number a))) eqn:E.
  - exists [], (a :: seats). simpl. repeat split; [lia|constructor|].
    intros ? [= <-]. by apply seat_lt_test.
  - destruct (IH (S position)) as (before & after & -> & Hp & Hb & Ha).
    exists (a :: before), after. simpl. repeat split; [lia| |done].
    constructor; [|done]. intros Hlt. apply seat_lt_test in Hlt. congruence.
Qed.

Lemma last_default (h : Hall) (d last_seat : Seat) :
  last h = Some last_seat → List.last h d = last_seat.
Proof.
  induction h as [|a [|b h] IH]; intros Hl; [done| |].
  - simpl in *. congruence.
  - change (List.last (a :: b :: h) d) with (List.last (b :: h) d).
    by apply IH.
Qed.

(** [add_seat] on a hall that has the seat already. *)
Lemma add_seat_present (seat : Seat) (h : Hall) :
  present h (get_number seat) (get_row seat) →
  add_seat seat h = (Raise DuplicateSeat, h).
Proof.
  intros Hp. unfold add_seat.
  unfold mbind at 1, M_bind, get_seats.
  unfold mbind at 1, M_bind.
  by rewrite duplicate_check_present.
Qed.

(** [add_seat] on a hall that does not have it. *)
Lemma add_seat_absent (seat : Seat) (h : Hall) :
  absent h (get_number seat) (get_row seat) →
  add_seat seat h =
  match h with
  | [] => (Ok (added_message seat), [seat])
  | first_seat :: _ =>
      let last_seat := List.last h first_seat in
      if get_row seat >? get_row last_seat
      then (Raise (RowOutOfRange (get_row first_seat) (get_row last_seat)), h)
      else if get_number seat =? get_number last_seat + 1
      then
        let position := find_position seat h 0 in
        (Ok (added_message seat),
         take position h ++ seat :: drop position h)
      else (Raise (NonSequentialSeat (get_number last_seat)), h)
  end.
Proof.
  intros Ha. unfold add_seat.
  unfold mbind at 1, M_bind, get_seats.
  unfold mbind at 1, M_bind.
  rewrite duplicate_check_absent by done.
  run_M. destruct h as [|first_seat rest]; [done|].
  cbn zeta.
  destruct (get_row seat >? get_row (List.last (first_seat :: rest) first_seat));
    [done|].
  by destruct (get_number seat
               =? get_number (List.last (first_seat :: rest) first_seat) + 1).
Qed.

Lemma take_drop_position (seat : Seat) (h : Hall) :
  ∃ before after,
    h = before ++ after
    ∧ take (find_position seat h 0) h = before
    ∧ drop (find_position seat h 0) h = after
    ∧ Forall (λ a, ¬ seat_lt seat a) before
    ∧ (∀ a, head after = Some a → seat_lt seat a).
Proof.
  destruct (find_position_split seat h 0)
    as (before & after & -> & Hp & Hb & Ha).
  exists before, after. rewrite Hp. simpl.
  by rewrite take_app_length, drop_app_length.
Qed.

(** The state after [add_seat]: the hall as it was, or the hall with
    the seat at its position. *)
Lemma add_seat_state (seat : Seat) (h : Hall) :
  (∃ e, add_seat seat h = (Raise e, h))
  ∨ (absent h (get_number seat) (get_row seat)
     ∧ ∃ before after,
         h = before ++ after
         ∧ add_seat seat h
           = (Ok (added_message seat), before ++ seat :: after)
         ∧ Forall (λ a, ¬ seat_lt seat a) before
         ∧ (∀ a, head after = Some a → seat_lt seat a)).
Proof.
  destruct (seat_cases h (get_number seat) (get_row seat))
    as [Ha|(i & s & Hi & Hk & _)].
  2:{ left. eexists. apply add_seat_present.
      apply Exists_exists. exists s. split; [|done].
      by eapply list_elem_of_lookup_2. }
  rewrite add_seat_absent by done.
  destruct h as [|first_seat rest].
  { right. split; [done|]. exists [], []. repeat split; [constructor|done]. }
  cbn zeta.
  destruct (get_row seat >? _); [left; eauto|].
  destruct (get_number seat =? _); [|left; eauto].
  right. split; [done|].
  destruct (take_drop_position seat (first_seat :: rest))
    as (before & after & Heq & -> & -> & Hb & Hafter).
  by exists before, after.
Qed.

End AddSeat.

(** C3.  On a non-empty hall, [add_seat] fails with DuplicateSeat when a
    seat of the hall has the same number and row; failing that, with
    RowOutOfRange when the row is above the row of the last seat of the
    sequence; failing that, with NonSequentialSeat when the number is not
    the number of the last seat of the whole sequence plus one; and
    otherwise succeeds, the seat going before the first seat that is above
    it in (row, number) order, which keeps a sorted sequence sorted.  (In
    a sorted hall a row above the last one is never a duplicate, so there
    RowOutOfRange needs no proviso.)  On the hall of 5 rows of 5 seats,
    adding seat 6 of row 3 succeeds and gives 26 seats. *)
Theorem add_seat_spec :
  (∀ (h : Hall) (seat first_seat last_seat : Seat),
     head h = Some first_seat → last h = Some last_seat →
     (present h (get_number seat) (get_row seat) →
      add_seat seat h = (Raise DuplicateSeat, h))
     ∧ (absent h (get_number seat) (get_row seat) ∨ sorted h →
        get_row seat > get_row last_seat →
        add_seat seat h
        = (Raise (RowOutOfRange (get_row first_seat) (get_row last_seat)), h))
     ∧ (absent h (get_number seat) (get_row seat) →
        get_row seat ≤ get_row last_seat →
        get_number seat ≠ get_number last_seat + 1 →
        add_seat seat h
        = (Raise (NonSequentialSeat (get_number last_seat)), h))
     ∧ (absent h (get_number seat) (get_row seat) →
        get_row seat ≤ get_row last_seat →
        get_number seat = get_number last_seat + 1 →
        ∃ before after,
          h = before ++ after
          ∧ add_seat seat h
            = (Ok ("Seat " +:+ str_int (get_number seat) +:+ " in row "
                   +:+ str_int (get_row seat) +:+ " has been added."),
               before ++ seat :: after)
          ∧ Forall (λ a, ¬ seat_lt seat a) before
          ∧ (∀ a, head after = Some a → seat_lt seat a)
          ∧ (sorted h → sorted (before ++ seat :: after))))
  ∧ (∃ (h : Hall) (seat : Seat) (msg : string) (h' : Hall),
       new_CinemaHall (PyInt 5) (PyInt 5) = Ok h
       ∧ Seat_init (PyInt 6) (PyInt 3) = Ok seat
       ∧ add_seat seat h = (Ok msg, h')
       ∧ length h' = 26%nat).
Proof.
  split.
  - intros h seat first_seat last_seat Hfirst Hlast.
    split; [apply add_seat_present|].
    destruct h as [|f rest]; [done|]. injection Hfirst as ->.
    pose proof (last_default _ first_seat _ Hlast) as Hl.
    split; [|split].
    + intros Ha Hrow.
      assert (absent (first_seat :: rest) (get_number seat) (get_row seat))
        as Habs.
      { destruct Ha as [Ha|Hs]; [done|].
        by apply (sorted_row_above_absent _ _ last_seat). }
      rewrite add_seat_absent by done. cbn zeta. rewrite Hl.
      destruct (Z.gtb_spec (get_row seat) (get_row last_seat)); [done|lia].
    + intros Ha Hrow Hnum. rewrite add_seat_absent by done. cbn zeta.
      rewrite Hl.
      destruct (Z.gtb_spec (get_row seat) (get_row last_seat)); [lia|].
      destruct (Z.eqb_spec (get_number seat) (get_number last_seat + 1));
        [lia|done].
    + intros Ha Hrow Hnum. rewrite add_seat_absent by done. cbn zeta.
      rewrite Hl.
      destruct (Z.gtb_spec (get_row seat) (get_row last_seat)); [lia|].
      destruct (Z.eqb_spec (get_number seat) (get_number last_seat + 1));
        [|lia].
      destruct (take_drop_position seat (first_seat :: rest))
        as (before & after & Heq & -> & -> & Hb & Hafter).
      exists before, after. repeat split; try done.
      intros Hs. rewrite Heq in Hs, Ha. by apply insert_sorted.
  - eexists _, _, _, _. repeat split; vm_compute; reflexivity.
Qed.

Lemma add_seat_spec_witness :
  add_seat (mkSeat 1 1 false zero) [mkSeat 1 1 false zero]
  = (Raise DuplicateSeat, [mkSeat 1 1 false zero])
  ∧ add_seat (mkSeat 2 2 false zero) [mkSeat 1 1 false zero]
    = (Raise (RowOutOfRange 1 1), [mkSeat 1 1 false zero])
  ∧ add_seat (mkSeat 3 1 false zero) [mkSeat 1 1 false zero]
    = (Raise (NonSequentialSeat 1), [mkSeat 1 1 false zero]).
Proof.
  pose proof (proj1 add_seat_spec [mkSeat 1 1 false zero]) as H.
  split; [|split].
  - apply (proj1 (H (mkSeat 1 1 false zero) (mkSeat 1 1 false zero)
                    (mkSeat 1 1 false zero) eq_refl eq_refl)).
    constructor. split; reflexivity.
  - apply (proj1 (proj2 (H (mkSeat 2 2 false zero) (mkSeat 1 1 false zero)
                           (mkSeat 1 1 false zero) eq_refl eq_refl))).
    + left. constructor; [|constructor]. unfold has_key. simpl. lia.
    + simpl. lia.
  - apply (proj1 (proj2 (proj2 (H (mkSeat 3 1 false zero)
                                  (mkSeat 1 1 false zero)
                                  (mkSeat 1 1 false zero) eq_refl eq_refl)))).
    + constructor; [|constructor]. unfold has_key. simpl. lia.
    + simpl. lia.
    + simpl. lia.
Defined.

(* ===================================================================== *)
(** * What every operation keeps                                          *)
(* ===================================================================== *)

Section Invariants.

Lemma with_price_key (price : num) (s : Seat) :
  key (with_price price s) = key s.
Proof. done. Qed.

Lemma with_reserved_key (reserved : bool) (s : Seat) :
  key (with_reserved reserved s) = key s.
Proof. done. Qed.

(** The state after [cancel_reservation] and [add_seat] when they
    raise: the hall as it was. *)
Lemma cancel_reservation_raise (h h' : Hall) (number row : Z) (e : exn) :
  cancel_reservation number row h = (Raise e, h') → h' = h.
Proof.
  rewrite cancel_reservation_eval.
  destruct (search_from 0 h number row) as [[i seat]|]; [|congruence].
  destruct (is_reserved seat); congruence.
Qed.

Lemma add_seat_raise (h h' : Hall) (seat : Seat) (e : exn) :
  add_seat seat h = (Raise e, h') → h' = h.
Proof.
  destruct (add_seat_state seat h)
    as [[e' He]|(_ & before & after & _ & He & _)]; congruence.
Qed.

Lemma reserve_seat_sorted (h : Hall) (number row age day_of_week : Z)
    (base_price : num) :
  sorted h →
  sorted (snd (reserve_seat number row age day_of_week base_price h)).
Proof.
  intros Hs.
  destruct (reserve_seat_state h number row age day_of_week base_price)
    as [->|(i & seat & price & _ & _ & _ & ->)]; [done|].
  by apply sorted_alter.
Qed.

Lemma cancel_reservation_sorted (h : Hall) (number row : Z) :
  sorted h → sorted (snd (cancel_reservation number row h)).
Proof.
  intros Hs. rewrite cancel_reservation_eval.
  destruct (search_from 0 h number row) as [[i seat]|]; [|done].
  destruct (is_reserved seat); [|done]. cbn.
  apply sorted_alter; [apply with_price_key|].
  apply sorted_alter; [apply with_reserved_key|done].
Qed.

Lemma add_seat_sorted (h : Hall) (seat : Seat) :
  sorted h → sorted (snd (add_seat seat h)).
Proof.
  intros Hs.
  destruct (add_seat_state seat h)
    as [[e He]|(Ha & before & after & Heq & He & Hb & Hafter)];
    rewrite He; cbn [snd]; [done|].
  rewrite Heq in Hs, Ha. by apply insert_sorted.
Qed.

Lemma exec_sorted (o : op) (h : Hall) : sorted h → sorted (snd (exec o h)).
Proof.
  destruct o; cbn [exec].
  - apply reserve_seat_sorted.
  - apply cancel_reservation_sorted.
  - apply add_seat_sorted.
Qed.

Lemma run_sorted (ops : list op) (h : Hall) : sorted h → sorted (run ops h).
Proof.
  revert h. induction ops as [|o ops IH]; intros h Hs; [done|].
  cbn. apply IH. by apply exec_sorted.
Qed.

Lemma new_CinemaHall_sorted (rows seats_per_row : pyobj) (h : Hall) :
  new_CinemaHall rows seats_per_row = Ok h → sorted h.
Proof.
  intros Hnew.
  destruct (as_int rows) as [r|] eqn:Hr.
  2:{ destruct (new_CinemaHall_invalid rows seats_per_row) as (e & He & _);
        [|congruence].
      left. unfold not_positive_int. by rewrite Hr. }
  destruct (as_int seats_per_row) as [s|] eqn:Hs.
  2:{ destruct (new_CinemaHall_invalid rows seats_per_row) as (e & He & _);
        [|congruence].
      right. unfold not_positive_int. by rewrite Hs. }
  destruct (Z.le_gt_cases r 0).
  { destruct (new_CinemaHall_invalid rows seats_per_row) as (e & He & _);
      [|congruence].
    left. unfold not_positive_int. by rewrite Hr. }
  destruct (Z.le_gt_cases s 0).
  { destruct (new_CinemaHall_invalid rows seats_per_row) as (e & He & _);
      [|congruence].
    right. unfold not_positive_int. by rewrite Hs. }
  destruct rows; try done. destruct seats_per_row; try done.
  simpl in Hr, Hs. injection Hr as ->. injection Hs as ->.
  rewrite new_CinemaHall_grid in Hnew by lia. injection Hnew as <-.
  apply grid_sorted; apply seqZ_sorted.
Qed.

End Invariants.

(** C4.  In every hall reached from a construction by reserving,
    cancelling and adding seats, the seats are in ascending (row, number)
    order and no two have the same number and row; a successful
    [add_seat] keeps both. *)
Theorem hall_invariants :
  (∀ (rows seats_per_row : pyobj) (h : Hall) (ops : list op),
     new_CinemaHall rows seats_per_row = Ok h →
     sorted (run ops h) ∧ unique_keys (run ops h))
  ∧ (∀ (h h' : Hall) (seat : Seat) (msg : string),
       sorted h → unique_keys h →
       add_seat seat h = (Ok msg, h') →
       sorted h' ∧ unique_keys h').
Proof.
  split.
  - intros rows spr h ops Hnew.
    assert (sorted (run ops h)) as Hs.
    { apply run_sorted. by eapply new_CinemaHall_sorted. }
    split; [done|by apply sorted_unique_keys].
  - intros h h' seat msg Hs _ Hadd.
    assert (sorted h') as Hs'.
    { pose proof (add_seat_sorted h seat Hs) as H. by rewrite Hadd in H. }
    split; [done|by apply sorted_unique_keys].
Qed.

Lemma hall_invariants_witness :
  (sorted (run [Reserve 1 1 70 2 ten; AddSeat (mkSeat 3 1 false zero);
                Cancel 1 1; Cancel 9 9]
               (grid (range 1 3) (range 1 3)))
   ∧ unique_keys (run [Reserve 1 1 70 2 ten; AddSeat (mkSeat 3 1 false zero);
                       Cancel 1 1; Cancel 9 9]
                      (grid (range 1 3) (range 1 3))))
  ∧ (sorted [mkSeat 1 1 false zero; mkSeat 2 1 false zero]
     ∧ unique_keys [mkSeat 1 1 false zero; mkSeat 2 1 false zero]).
Proof.
  split.
  - apply (proj1 hall_invariants (PyInt 2) (PyInt 2)). reflexivity.
  - apply (proj2 hall_invariants [mkSeat 1 1 false zero] _
             (mkSeat 2 1 false zero) (added_message (mkSeat 2 1 false zero))).
    + repeat constructor.
    + repeat constructor. apply not_elem_of_nil.
    + reflexivity.
Defined.

(** Every failure with a [ValueError], the error of all the checks of
    the three operations, leaves the hall as it was. *)
Lemma value_error_keeps_hall (o : op) (h h' : Hall) (msg : string) :
  exec o h = (Raise (ValueError msg), h') → h' = h.
Proof.
  destruct o; cbn [exec].
  - apply reserve_seat_raise.
  - apply cancel_reservation_raise.
  - apply add_seat_raise.
Qed.

(** C7 (a defect of the code).  [reserve_seat] stores the price and the
    flag before it formats the price for its message.  On the hall of
    one seat, reserving seat 1 of row 1 on a Monday at the base price
    [10**400], an [int] beyond the floats, raises [OverflowError] from the
    format, and leaves the seat reserved at that price: a failure that
    changed the hall. *)
Theorem reserve_seat_fails_after_update :
  new_CinemaHall (PyInt 1) (PyInt 1) = Ok [mkSeat 1 1 false zero]
  ∧ reserve_seat 1 1 30 0 (NInt (10 ^ 400)) [mkSeat 1 1 false zero]
    = (Raise int_too_large, [mkSeat 1 1 true (NInt (10 ^ 400))])
  ∧ [mkSeat 1 1 true (NInt (10 ^ 400))] ≠ [mkSeat 1 1 false zero].
Proof.
  split; [reflexivity|]. split; [vm_compute; reflexivity|discriminate].
Qed.

(* ===================================================================== *)
(** * Showing the seats                                                   *)
(* ===================================================================== *)

Section ShowSeats.

Variable repr_float : float → string.

Lemma seat_line_displayed (shown : num) (seat : Seat) :
  seat_line repr_float shown seat = displayed_line repr_float shown seat.
Proof.
  unfold seat_line, displayed_line, displayed_price.
  by destruct (is_reserved seat).
Qed.

Lemma append_loop {A B} (f : A → B) (l : list A) (acc : list B) :
  foldl (λ acc x, acc ++ [f x]) acc l = acc ++ (f <$> l).
Proof.
  revert acc. induction l as [|x l IH]; intros acc; cbn.
  - by rewrite app_nil_r.
  - rewrite IH. by rewrite <- app_assoc.
Qed.

(** [show_seats], as a function of the base price of the day. *)
Lemma show_seats_eval (h : Hall) (day_of_week : Z) (base_price : num) :
  show_seats repr_float day_of_week base_price h
  = match shown_price base_price day_of_week with
    | Ok shown =>
        (Ok (join newline (displayed_line repr_float shown <$> h)), h)
    | Raise e => (Raise e, h)
    end.
Proof.
  unfold show_seats, shown_price. cbn zeta.
  destruct (Z.eqb_spec day_of_week 2); case_bool_decide; try done; run_M.
  - destruct (mul_float base_price lit_0_8) as [shown|err]; [|done].
    by rewrite append_loop.
  - by rewrite append_loop.
Qed.

End ShowSeats.




(** C10.  [show_seats] changes nothing: the hall after the call is the
    hall before it, whatever the day and the base price. *)
Theorem show_seats_read_only (repr_float : float → string) (h : Hall)
    (day_of_week : Z) (base_price : num) :
  snd (show_seats repr_float day_of_week base_price h) = h.
Proof.
  rewrite show_seats_eval.
  by destruct (shown_price base_price day_of_week).
Qed.

(* ===================================================================== *)
(** * The default day                                                     *)
(* ===================================================================== *)

(** C9 (a defect of the code).  The default of [day_of_week] is what the
    clock gave when the method was defined, not the day of the call: a
    call reads no clock.  A hall whose methods were defined on a
    Wednesday charges the Wednesday price, 8.00 for the base price 10,
    on every later call that leaves the day out; one defined on a
    Thursday charges 10.00 for the same call. *)
Theorem default_day_frozen_at_definition :
  call_reserve_seat
    {| reserve_seat_default_day := 2; show_seats_default_day := 2 |}
    1 1 30 None None [mkSeat 1 1 false zero]
  = (Ok "Seat 1 in row 1 has been reserved. Price: 8.00€",
     [mkSeat 1 1 true (NFloat (float_of_Z 8))])
  ∧ call_reserve_seat
      {| reserve_seat_default_day := 3; show_seats_default_day := 3 |}
      1 1 30 None None [mkSeat 1 1 false zero]
    = (Ok "Seat 1 in row 1 has been reserved. Price: 10.00€",
       [mkSeat 1 1 true (NInt 10)]).
Proof.
  split; vm_compute; reflexivity.
Qed.

(* ===================================================================== *)
(** * Seats and their lookup                                              *)
(* ===================================================================== *)

Section SeatFacts.

Lemma fresh_seat_mk (number row : Z) :
  0 < number → 0 < row → fresh_seat (mkSeat number row false zero).
Proof. by unfold fresh_seat. Qed.

Lemma fresh_seat_eta (s : Seat) :
  fresh_seat s → s = mkSeat (get_number s) (get_row s) false zero.
Proof. destruct s. unfold fresh_seat. simpl. by intros (_ & _ & -> & ->). Qed.

Lemma absent_take (h : Hall) (number row : Z) (i : nat) :
  absent h number row → absent (take i h) number row.
Proof. unfold absent. apply Forall_take. Qed.

(** With unique keys, nothing before a seat has its number and row. *)
Lemma unique_keys_absent_before (h : Hall) (i : nat) (s : Seat) :
  unique_keys h → h !! i = Some s →
  absent (take i h) (get_number s) (get_row s).
Proof.
  unfold unique_keys, absent. intros Hnd Hi.
  apply Forall_forall. intros a Ha [Hn Hr].
  apply list_elem_of_lookup in Ha as [j Hj].
  apply lookup_take_Some in Hj as [Hj Hlt].
  assert (j = i) as ->; [|lia].
  eapply NoDup_lookup; [exact Hnd| |].
  - rewrite list_lookup_fmap, Hj. reflexivity.
  - rewrite list_lookup_fmap, Hi. simpl. unfold key. by rewrite Hn, Hr.
Qed.

End SeatFacts.

(** X1.  [Seat(number, row)] succeeds exactly for two positive integers,
    and then gives the unreserved seat of price 0 with that number and
    row; a number that is not a positive integer is reported before the
    row is looked at. *)
Theorem Seat_init_iff (number row : pyobj) (s : Seat) :
  (Seat_init number row = Ok s
   ↔ ∃ n r, number = PyInt n ∧ row = PyInt r ∧ 0 < n ∧ 0 < r
            ∧ s = mkSeat n r false zero)
  ∧ ((∃ e, Seat_init number row = Raise e) 
     ↔ not_positive_int number ∨ not_positive_int row)
  ∧ (Seat_init number row
     = Raise (ValueError "The seat number must be a positive integer.")
     ↔ not_positive_int number).
Proof.
  assert (∀ v, (∃ z, v = PyInt z ∧ 0 < z) ∨ not_positive_int v) as Hcases.
  { intros [z| | |]; unfold not_positive_int; simpl; try by right.
    destruct (Z.le_gt_cases z 0); [by right|left; eauto]. }
  destruct (Hcases number) as [(n & -> & Hn)|Hbad].
  - assert (¬ not_positive_int (PyInt n)) as Hgood.
    { unfold not_positive_int. simpl. lia. }
    destruct (Hcases row) as [(r & -> & Hr)|Hbadr].
    + assert (¬ not_positive_int (PyInt r)) as Hgoodr.
      { unfold not_positive_int. simpl. lia. }
      rewrite Seat_init_pos by done. split; [|split].
      * split; [intros [= <-]; eauto 10|].
        by intros (n' & r' & [= <-] & [= <-] & _ & _ & ->).
      * split; [by intros [e He]|tauto].
      * split; [done|tauto].
    + assert (Seat_init (PyInt n) row
              = Raise (ValueError "The seat row must be a positive integer."))
        as ->.
      { unfold Seat_init, not_positive_int in *. simpl.
        destruct (Z.leb_spec n 0); [lia|].
        destruct (as_int row) as [r|]; [|done].
        by destruct (Z.leb_spec r 0); [|lia]. }
      split; [|split].
      * split; [done|].
        intros (n' & r' & _ & -> & _ & Hr & _).
        unfold not_positive_int in Hbadr. simpl in Hbadr. lia.
      * split; [tauto|eauto].
      * split; [done|tauto].
  - assert (Seat_init number row
            = Raise (ValueError "The seat number must be a positive integer."))
      as ->.
    { unfold Seat_init, not_positive_int in *.
      destruct (as_int number) as [n|]; [|done].
      by destruct (Z.leb_spec n 0); [|lia]. }
    split; [|split].
    + split; [done|].
      intros (n' & r' & -> & _ & Hn & _).
      unfold not_positive_int in Hbad. simpl in Hbad. lia.
    + split; [tauto|eauto].
    + tauto.
Qed.

(** X2.  [search_seat] never raises and never changes the hall; it returns
    [None] exactly when no seat has the number and row, and otherwise the
    first seat that has them. *)
Theorem search_seat_spec (h : Hall) (number row : Z) :
  snd (search_seat number row h) = h
  ∧ (fst (search_seat number row h) = Ok None ↔ absent h number row)
  ∧ (∀ i s, fst (search_seat number row h) = Ok (Some (i, s))
            ↔ seat_at h number row i s)
  ∧ (∀ e, fst (search_seat number row h) ≠ Raise e).
Proof.
  unfold search_seat. run_M. cbn [fst snd]. split; [done|]. split; [|split].
  - rewrite <- search_from_None. split; congruence.
  - intros i s. rewrite <- search_from_Some. split; congruence.
  - done.
Qed.

(** X3.  In a hall whose seats have pairwise different (number, row),
    every seat of the list is what [search_seat] returns for its own
    number and row: no seat is hidden behind another. *)
Theorem search_seat_complete (h : Hall) (i : nat) (s : Seat) :
  unique_keys h → h !! i = Some s →
  search_seat (get_number s) (get_row s) h = (Ok (Some (i, s)), h).
Proof.
  intros Hnd Hi. unfold search_seat. run_M. do 2 f_equal.
  apply search_from_Some. split; [done|]. split; [done|].
  by apply unique_keys_absent_before.
Qed.

Lemma search_seat_complete_witness :
  unique_keys [mkSeat 1 1 false zero; mkSeat 2 1 true ten]
  ∧ search_seat 2 1 [mkSeat 1 1 false zero; mkSeat 2 1 true ten]
    = (Ok (Some (1%nat, mkSeat 2 1 true ten)),
       [mkSeat 1 1 false zero; mkSeat 2 1 true ten]).
Proof.
  assert (unique_keys [mkSeat 1 1 false zero; mkSeat 2 1 true ten]) as H.
  { unfold unique_keys. apply (bool_decide_unpack _). by vm_compute. }
  split; [exact H|].
  apply (search_seat_complete _ 1%nat (mkSeat 2 1 true ten) H). reflexivity.
Defined.

(* ===================================================================== *)
(** * The shape of a hall                                                 *)
(* ===================================================================== *)

Section Shape.

Lemma fmap_key_alter (f : Seat → Seat) (i : nat) (h : Hall) :
  (∀ s, key (f s) = key s) → key <$> alter f i h = key <$> h.
Proof.
  intros Hf. revert i. induction h as [|a h IH]; intros [|i]; cbn; try done.
  - by rewrite Hf.
  - by rewrite IH.
Qed.

Lemma reserve_seat_keys (h : Hall) (number row age day_of_week : Z)
    (base_price : num) :
  key <$> snd (reserve_seat number row age day_of_week base_price h)
  = key <$> h.
Proof.
  destruct (reserve_seat_state h number row age day_of_week base_price)
    as [->|(i & seat & price & _ & _ & _ & ->)]; [done|].
  by rewrite fmap_key_alter.
Qed.

Lemma cancel_reservation_keys (h : Hall) (number row : Z) :
  key <$> snd (cancel_reservation number row h) = key <$> h.
Proof.
  rewrite cancel_reservation_eval.
  destruct (search_from 0 h number row) as [[i seat]|]; [|done].
  destruct (is_reserved seat); [|done]. cbn.
  rewrite !fmap_key_alter; done.
Qed.

Lemma rows_of_keys (h : Hall) : get_row <$> h = snd <$> (key <$> h).
Proof. rewrite <- list_fmap_compose. done. Qed.

Lemma numbers_of_keys (h : Hall) : get_number <$> h = fst <$> (key <$> h).
Proof. rewrite <- list_fmap_compose. done. Qed.

Lemma get_rows_eval (h : Hall) :
  get_rows h = (Ok (Z.of_nat (size (row_set h))), h).
Proof. done. Qed.

Lemma get_seats_per_row_eval (h : Hall) :
  get_seats_per_row h = (Ok (Z.of_nat (size (number_set h))), h).
Proof. done. Qed.

Lemma same_keys_same_sets (h h' : Hall) :
  key <$> h = key <$> h' →
  row_set h = row_set h' ∧ number_set h = number_set h'.
Proof.
  intros Hk. unfold row_set, number_set.
  by rewrite !rows_of_keys, !numbers_of_keys, Hk.
Qed.

Lemma elem_of_grid (s : Seat) (rows numbers : list Z) :
  s ∈ grid rows numbers
  ↔ ∃ r n, r ∈ rows ∧ n ∈ numbers ∧ s = mkSeat n r false zero.
Proof.
  unfold grid, row_seats. rewrite list_elem_of_In, in_flat_map. split.
  - intros (r & Hr & Hs). apply list_elem_of_In in Hs, Hr.
    apply list_elem_of_fmap in Hs as (n & -> & Hn). eauto.
  - intros (r & n & Hr & Hn & ->). exists r.
    rewrite <- !list_elem_of_In. split; [done|].
    apply list_elem_of_fmap. eauto.
Qed.

Lemma row_set_grid (rows numbers : list Z) :
  numbers ≠ [] → row_set (grid rows numbers) = list_to_set rows.
Proof.
  intros Hne. unfold row_set. apply set_eq. intros x.
  rewrite !elem_of_list_to_set, list_elem_of_fmap. split.
  - intros (s & -> & Hs). by apply elem_of_grid in Hs as (r & n & Hr & _ & ->).
  - intros Hx. destruct numbers as [|n numbers]; [done|].
    exists (mkSeat n x false zero). split; [done|].
    apply elem_of_grid. exists x, n. repeat split; [done|]. by left.
Qed.

Lemma number_set_grid (rows numbers : list Z) :
  rows ≠ [] → number_set (grid rows numbers) = list_to_set numbers.
Proof.
  intros Hne. unfold number_set. apply set_eq. intros x.
  rewrite !elem_of_list_to_set, list_elem_of_fmap. split.
  - intros (s & -> & Hs). by apply elem_of_grid in Hs as (r & n & _ & Hn & ->).
  - intros Hx. destruct rows as [|r rows]; [done|].
    exists (mkSeat x r false zero). split; [done|].
    apply elem_of_grid. exists r, x. repeat split; [|done]. by left.
Qed.

Lemma range_nonempty (hi : Z) : 1 < hi → range 1 hi ≠ [].
Proof.
  intros Hhi Hnil. apply (f_equal length) in Hnil.
  unfold range in Hnil. rewrite length_seqZ in Hnil. simpl in Hnil. lia.
Qed.

Lemma size_range (hi : Z) :
  1 ≤ hi → Z.of_nat (size (list_to_set (range 1 hi) : gset Z)) = hi - 1.
Proof.
  intros Hhi. unfold range.
  rewrite size_list_to_set by apply NoDup_seqZ.
  rewrite length_seqZ. lia.
Qed.

Lemma new_CinemaHall_Ok_inv (rows seats_per_row : pyobj) (h : Hall) :
  new_CinemaHall rows seats_per_row = Ok h →
  ∃ r s, rows = PyInt r ∧ seats_per_row = PyInt s ∧ 0 < r ∧ 0 < s
         ∧ h = grid (range 1 (r + 1)) (range 1 (s + 1)).
Proof.
  intros Hnew.
  assert (¬ (not_positive_int rows ∨ not_positive_int seats_per_row)) as Hok.
  { intros Hbad.
    destruct (new_CinemaHall_invalid _ _ Hbad) as (e & He & _). congruence. }
  unfold not_positive_int in Hok.
  destruct rows as [r| | |]; simpl in Hok; try tauto.
  destruct seats_per_row as [s| | |]; simpl in Hok; try tauto.
  exists r, s. assert (0 < r ∧ 0 < s) as [Hr Hs] by lia.
  repeat split; try done.
  rewrite new_CinemaHall_grid in Hnew by done. congruence.
Qed.

End Shape.

(** X4.  On a hall as the constructor builds it, [get_rows] and
    [get_seats_per_row] give back the two arguments of the constructor. *)
Theorem new_hall_dimensions (rows seats_per_row : Z) (h : Hall) :
  new_CinemaHall (PyInt rows) (PyInt seats_per_row) = Ok h →
  get_rows h = (Ok rows, h)
  ∧ get_seats_per_row h = (Ok seats_per_row, h).
Proof.
  intros Hnew.
  apply new_CinemaHall_Ok_inv in Hnew
    as (r & s & [= <-] & [= <-] & Hr & Hs & ->).
  rewrite get_rows_eval, get_seats_per_row_eval.
  rewrite row_set_grid by (apply range_nonempty; lia).
  rewrite number_set_grid by (apply range_nonempty; lia).
  rewrite !size_range by lia.
  split; do 2 f_equal; lia.
Qed.

Lemma new_hall_dimensions_witness :
  get_rows (grid (range 1 6) (range 1 11))
  = (Ok 5, grid (range 1 6) (range 1 11))
  ∧ get_seats_per_row (grid (range 1 6) (range 1 11))
    = (Ok 10, grid (range 1 6) (range 1 11)).
Proof.
  apply (new_hall_dimensions 5 10). reflexivity.
Defined.

(** X5.  Reserving and cancelling, whether they succeed or fail, keep the
    sequence of (number, row) pairs of the hall: no seat is added,
    removed, moved or renumbered, and [get_rows] and [get_seats_per_row]
    answer as before. *)
Theorem reservations_keep_shape (h : Hall) (number row age day_of_week : Z)
    (base_price : num) :
  let h1 := snd (reserve_seat number row age day_of_week base_price h) in
  let h2 := snd (cancel_reservation number row h) in
  key <$> h1 = key <$> h ∧ key <$> h2 = key <$> h
  ∧ length h1 = length h ∧ length h2 = length h
  ∧ fst (get_rows h1) = fst (get_rows h)
  ∧ fst (get_rows h2) = fst (get_rows h)
  ∧ fst (get_seats_per_row h1) = fst (get_seats_per_row h)
  ∧ fst (get_seats_per_row h2) = fst (get_seats_per_row h).
Proof.
  cbn zeta.
  pose proof (reserve_seat_keys h number row age day_of_week base_price) as H1.
  pose proof (cancel_reservation_keys h number row) as H2.
  destruct (same_keys_same_sets _ _ H1) as [Hr1 Hn1].
  destruct (same_keys_same_sets _ _ H2) as [Hr2 Hn2].
  rewrite !get_rows_eval, !get_seats_per_row_eval. cbn [fst].
  rewrite Hr1, Hr2, Hn1, Hn2.
  repeat split; try done.
  - apply (f_equal length) in H1. by rewrite !length_fmap in H1.
  - apply (f_equal length) in H2. by rewrite !length_fmap in H2.
Qed.

(* ===================================================================== *)
(** * Adding seats, further                                               *)
(* ===================================================================== *)

Section AddSeatMore.

(** What a successful [add_seat] tells. *)
Lemma add_seat_Ok_inv (h h' : Hall) (seat : Seat) (msg : string) :
  add_seat seat h = (Ok msg, h') →
  absent h (get_number seat) (get_row seat)
  ∧ (∀ last_seat, last h = Some last_seat →
       get_row seat ≤ get_row last_seat
       ∧ get_number seat = get_number last_seat + 1)
  ∧ ∃ before after,
      h = before ++ after ∧ h' = before ++ seat :: after
      ∧ Forall (λ a, ¬ seat_lt seat a) before
      ∧ (∀ a, head after = Some a → seat_lt seat a).
Proof.
  intros Hadd.
  destruct (seat_cases h (get_number seat) (get_row seat))
    as [Ha|(i & s & Hi & Hk & _)].
  2:{ rewrite add_seat_present in Hadd; [done|].
      apply Exists_exists. exists s. split; [|done].
      by eapply list_elem_of_lookup_2. }
  split; [done|]. split.
  - intros last_seat Hl. rewrite add_seat_absent in Hadd by done.
    destruct h as [|first_seat rest]; [done|].
    cbn zeta in Hadd. rewrite (last_default _ first_seat _ Hl) in Hadd.
    destruct (Z.gtb_spec (get_row seat) (get_row last_seat)); [done|].
    destruct (Z.eqb_spec (get_number seat) (get_number last_seat + 1));
      [lia|done].
  - destruct (add_seat_state seat h)
      as [[e He]|(_ & before & after & Heq & He & Hb & Hafter)];
      [congruence|].
    exists before, after. repeat split; try done. congruence.
Qed.

Lemma absent_app (h1 h2 : Hall) (number row : Z) :
  absent (h1 ++ h2) number row ↔ absent h1 number row ∧ absent h2 number row.
Proof. unfold absent. apply Forall_app. Qed.

(** Looking a seat up around an inserted one. *)
Lemma seat_at_insert_other (before after : Hall) (seat s : Seat)
    (number row : Z) (i : nat) :
  ¬ has_key number row seat →
  seat_at (before ++ after) number row i s →
  ∃ j, seat_at (before ++ seat :: after) number row j s.
Proof.
  intros Hseat (Hi & Hk & Habs).
  destruct (decide (i < length before)%nat) as [Hlt|Hge].
  - exists i. split; [|split; [done|]].
    + rewrite lookup_app_l in Hi by done. by rewrite lookup_app_l.
    + rewrite take_app_le in Habs by lia. by rewrite take_app_le by lia.
  - exists (S i). split; [|split; [done|]].
    + rewrite lookup_app_r in Hi by lia. rewrite lookup_app_r by lia.
      by replace (S i - length before)%nat with (S (i - length before)) by lia.
    + rewrite take_app_ge in Habs by lia. rewrite take_app_ge by lia.
      apply absent_app in Habs as [Hb Ha]. apply absent_app. split; [done|].
      replace (S i - length before)%nat with (S (i - length before)) by lia.
      simpl. by constructor.
Qed.

Lemma absent_insert_other (before after : Hall) (seat : Seat)
    (number row : Z) :
  ¬ has_key number row seat →
  absent (before ++ after) number row →
  absent (before ++ seat :: after) number row.
Proof.
  intros Hseat Habs. apply absent_app in Habs as [Hb Ha].
  apply absent_app. split; [done|]. by constructor.
Qed.

Lemma found_seat_search (h : Hall) (number row : Z) :
  found_seat (fst (search_seat number row h))
  = snd <$> search_from 0 h number row.
Proof.
  unfold search_seat. run_M. cbn [fst].
  by destruct (search_from 0 h number row) as [[i s]|].
Qed.

End AddSeatMore.

(** X6.  After a successful [add_seat] the hall has one seat more,
    [search_seat] finds the added seat under its number and row, with
    the fields it came with, and finds under every other number and row
    the seat it found before. *)
Theorem add_seat_then_search (h h' : Hall) (seat : Seat) (msg : string) :
  add_seat seat h = (Ok msg, h') →
  length h' = S (length h)
  ∧ found_seat (fst (search_seat (get_number seat) (get_row seat) h'))
    = Some seat
  ∧ (∀ number row, ¬ has_key number row seat →
       found_seat (fst (search_seat number row h'))
       = found_seat (fst (search_seat number row h))).
Proof.
  intros Hadd.
  apply add_seat_Ok_inv in Hadd
    as (Habs & _ & before & after & -> & -> & _ & _).
  split; [|split].
  - rewrite !length_app. simpl. lia.
  - rewrite found_seat_search.
    assert (seat_at (before ++ seat :: after) (get_number seat) (get_row seat)
              (length before) seat) as Hat.
    { split; [by rewrite list_lookup_middle|]. split; [done|].
      rewrite take_app_length. by apply absent_app in Habs as [? _]. }
    apply search_from_Some in Hat. by rewrite Hat.
  - intros number row Hother. rewrite !found_seat_search.
    destruct (seat_cases (before ++ after) number row)
      as [Ha|(i & s & Hat)].
    + pose proof (absent_insert_other _ _ seat _ _ Hother Ha) as Ha'.
      apply search_from_None in Ha, Ha'. by rewrite Ha, Ha'.
    + destruct (seat_at_insert_other _ _ seat _ _ _ _ Hother Hat)
        as [j Hat'].
      apply search_from_Some in Hat, Hat'. by rewrite Hat, Hat'.
Qed.

Lemma add_seat_then_search_witness :
  length [mkSeat 1 1 true ten; mkSeat 2 1 false zero] = 2%nat
  ∧ found_seat (fst (search_seat 2 1
                       [mkSeat 1 1 true ten; mkSeat 2 1 false zero]))
    = Some (mkSeat 2 1 false zero)
  ∧ (∀ number row, ¬ has_key number row (mkSeat 2 1 false zero) →
       found_seat (fst (search_seat number row
                          [mkSeat 1 1 true ten; mkSeat 2 1 false zero]))
       = found_seat (fst (search_seat number row [mkSeat 1 1 true ten]))).
Proof.
  apply (add_seat_then_search [mkSeat 1 1 true ten] _ (mkSeat 2 1 false zero)
           (added_message (mkSeat 2 1 false zero))).
  reflexivity.
Defined.

Section Reachable.

Lemma tidy_fresh (s : Seat) : fresh_seat s → tidy_seat s.
Proof. unfold fresh_seat, tidy_seat. tauto. Qed.

Lemma Forall_alter_tidy (f : Seat → Seat) (i : nat) (h : Hall) :
  (∀ s, tidy_seat s → tidy_seat (f s)) →
  Forall tidy_seat h → Forall tidy_seat (alter f i h).
Proof. intros Hf Hh. apply Forall_alter; [done|]. intros s _. apply Hf. Qed.

(** Between [set_price] and [set_reserved] the seat has a price and no
    flag; the two updates together keep seats tidy. *)
Lemma reserve_seat_tidy (h : Hall) (number row age day_of_week : Z)
    (base_price : num) :
  Forall tidy_seat h →
  Forall tidy_seat
    (snd (reserve_seat number row age day_of_week base_price h)).
Proof.
  intros Hh.
  destruct (reserve_seat_state h number row age day_of_week base_price)
    as [->|(i & seat & price & _ & _ & _ & ->)]; [done|].
  apply Forall_alter_tidy; [|done].
  intros s (Hn & Hr & _). unfold tidy_seat. simpl. done.
Qed.

Lemma cancel_reservation_tidy (h : Hall) (number row : Z) :
  Forall tidy_seat h →
  Forall tidy_seat (snd (cancel_reservation number row h)).
Proof.
  intros Hh. rewrite cancel_reservation_eval.
  destruct (search_from 0 h number row) as [[i seat]|]; [|done].
  destruct (is_reserved seat); [|done]. cbn.
  rewrite list_alter_alter_eq. apply Forall_alter_tidy; [|done].
  intros s (Hn & Hr & _). unfold tidy_seat. simpl. done.
Qed.

Lemma add_seat_tidy (h : Hall) (seat : Seat) :
  fresh_seat seat → Forall tidy_seat h →
  Forall tidy_seat (snd (add_seat seat h)).
Proof.
  intros Hf Hh.
  destruct (add_seat_state seat h)
    as [[e He]|(_ & before & after & Heq & He & _)]; rewrite He; cbn [snd];
    [done|].
  rewrite Heq in Hh. apply Forall_app in Hh as [Hb Ha].
  apply Forall_app. split; [done|]. constructor; [by apply tidy_fresh|done].
Qed.

Lemma exec_tidy (o : op) (h : Hall) :
  adds_fresh o → Forall tidy_seat h → Forall tidy_seat (snd (exec o h)).
Proof.
  destruct o; cbn [exec adds_fresh]; intros Hf.
  - apply reserve_seat_tidy.
  - apply cancel_reservation_tidy.
  - by apply add_seat_tidy.
Qed.

Lemma grid_tidy (rows numbers : list Z) :
  Forall (λ r, 0 < r) rows → Forall (λ n, 0 < n) numbers →
  Forall tidy_seat (grid rows numbers).
Proof.
  rewrite !Forall_forall. intros Hr Hn s Hs.
  apply elem_of_grid in Hs as (r & n & Hr' & Hn' & ->).
  apply tidy_fresh, fresh_seat_mk; auto.
Qed.

Lemma sets_insert (before after : Hall) (seat : Seat) :
  row_set (before ++ seat :: after)
  = {[get_row seat]} ∪ row_set (before ++ after)
  ∧ number_set (before ++ seat :: after)
    = {[get_number seat]} ∪ number_set (before ++ after).
Proof.
  unfold row_set, number_set. rewrite !fmap_app, !fmap_cons.
  rewrite !list_to_set_app_L, !list_to_set_cons.
  split; rewrite (assoc_L (∪)), (comm_L (∪) _ {[_]}), <- (assoc_L (∪)); done.
Qed.

Lemma last_is_Some (h : Hall) : h ≠ [] → ∃ s, last h = Some s ∧ s ∈ h.
Proof.
  intros Hne. destruct (last h) as [s|] eqn:Hl.
  - exists s. split; [done|]. apply last_Some in Hl as [l ->].
    apply elem_of_app. right. by left.
  - by apply last_None in Hl.
Qed.

Lemma add_seat_shape (rows seats_per_row : Z) (h : Hall) (seat : Seat) :
  fresh_seat seat → shape_kept rows seats_per_row h →
  shape_kept rows seats_per_row (snd (add_seat seat h)).
Proof.
  intros (_ & Hrow & _) (Hne & Hrows & Hnums).
  destruct (add_seat seat h) as [[msg|e] h'] eqn:Hadd; cbn [snd].
  2:{ apply add_seat_raise in Hadd as ->. by repeat split. }
  apply add_seat_Ok_inv in Hadd
    as (_ & Hlast & before & after & -> & -> & _ & _).
  destruct (sets_insert before after seat) as [Hr Hn].
  destruct (last_is_Some _ Hne) as (l & Hl & Hin).
  destruct (Hlast l Hl) as [Hle _].
  assert (get_row l ∈ row_set (before ++ after)) as Hlrow.
  { unfold row_set. apply elem_of_list_to_set, list_elem_of_fmap. eauto. }
  rewrite Hrows in Hlrow. apply elem_of_list_to_set in Hlrow.
  unfold range in Hlrow. apply elem_of_seqZ in Hlrow.
  assert (get_row seat ∈ row_set (before ++ after)) as Hin'.
  { rewrite Hrows. apply elem_of_list_to_set. unfold range.
    apply elem_of_seqZ. lia. }
  split; [by destruct before|]. split.
  - rewrite Hr, <- Hrows. apply subseteq_union_1_L.
    by apply singleton_subseteq_l.
  - rewrite Hn. by apply union_subseteq_r'.
Qed.

Lemma same_keys_shape (rows seats_per_row : Z) (h h' : Hall) :
  key <$> h' = key <$> h →
  shape_kept rows seats_per_row h → shape_kept rows seats_per_row h'.
Proof.
  intros Hk (Hne & Hrows & Hnums). unfold shape_kept.
  destruct (same_keys_same_sets _ _ Hk) as [-> ->].
  repeat split; try done.
  intros ->. destruct h; [done|]. discriminate Hk.
Qed.

Lemma exec_shape (rows seats_per_row : Z) (o : op) (h : Hall) :
  adds_fresh o → shape_kept rows seats_per_row h →
  shape_kept rows seats_per_row (snd (exec o h)).
Proof.
  destruct o; cbn [exec adds_fresh]; intros Hf.
  - apply same_keys_shape, reserve_seat_keys.
  - apply same_keys_shape, cancel_reservation_keys.
  - by apply add_seat_shape.
Qed.

Lemma run_keeps (P : Hall → Prop) (ops : list op) (h : Hall) :
  (∀ o h, adds_fresh o → P h → P (snd (exec o h))) →
  Forall adds_fresh ops → P h → P (run ops h).
Proof.
  intros Hstep Hops. revert h.
  induction Hops as [|o ops Ho _ IH]; intros h Hh; [done|].
  cbn. apply IH. by apply Hstep.
Qed.

Lemma grid_shape (rows seats_per_row : Z) :
  0 < rows → 0 < seats_per_row →
  shape_kept rows seats_per_row
    (grid (range 1 (rows + 1)) (range 1 (seats_per_row + 1))).
Proof.
  intros Hr Hs. split; [|split].
  - intros Hnil. apply (f_equal length) in Hnil.
    rewrite length_grid in Hnil. unfold range in Hnil.
    rewrite !length_seqZ in Hnil. simpl in Hnil. lia.
  - apply row_set_grid, range_nonempty. lia.
  - rewrite number_set_grid; [done|]. apply range_nonempty. lia.
Qed.

End Reachable.

(** X7.  In a hall made by the constructor and changed by reservations,
    cancellations and additions of seats fresh from [Seat(...)], every
    seat has a positive number and row, and every seat that is not
    reserved has price 0. *)
Theorem seats_stay_tidy (rows seats_per_row : pyobj) (h : Hall)
    (ops : list op) :
  new_CinemaHall rows seats_per_row = Ok h →
  Forall adds_fresh ops →
  Forall (λ s, 0 < get_number s ∧ 0 < get_row s
               ∧ (is_reserved s = false → get_price s = zero))
         (run ops h).
Proof.
  intros Hnew Hops.
  apply new_CinemaHall_Ok_inv in Hnew as (r & s & _ & _ & Hr & Hs & ->).
  apply (run_keeps (Forall tidy_seat)); [apply exec_tidy|done|].
  apply grid_tidy; apply range_pos.
Qed.

Lemma seats_stay_tidy_witness :
  Forall (λ s, 0 < get_number s ∧ 0 < get_row s
               ∧ (is_reserved s = false → get_price s = zero))
         (run [Reserve 1 1 70 2 ten; AddSeat (mkSeat 3 1 false zero);
               Cancel 1 1; Reserve 3 1 20 4 ten]
              (grid (range 1 3) (range 1 3))).
Proof.
  apply (seats_stay_tidy (PyInt 2) (PyInt 2)); [reflexivity|].
  repeat constructor.
Defined.

(** X8.  [add_seat] never makes a new row: in a hall made by the
    constructor and changed by reservations, cancellations and additions
    of fresh seats, [get_rows] answers the constructor's [rows] for ever,
    and [get_seats_per_row] never less than its [seats_per_row]. *)
Theorem rows_never_change (rows seats_per_row : Z) (h : Hall)
    (ops : list op) :
  new_CinemaHall (PyInt rows) (PyInt seats_per_row) = Ok h →
  Forall adds_fresh ops →
  fst (get_rows (run ops h)) = Ok rows
  ∧ ∃ k, fst (get_seats_per_row (run ops h)) = Ok k ∧ seats_per_row ≤ k.
Proof.
  intros Hnew Hops.
  apply new_CinemaHall_Ok_inv in Hnew
    as (r & s & [= <-] & [= <-] & Hr & Hs & ->).
  assert (shape_kept rows seats_per_row
            (run ops (grid (range 1 (rows + 1))
                           (range 1 (seats_per_row + 1)))))
    as (_ & Hrows & Hnums).
  { apply (run_keeps (shape_kept rows seats_per_row));
      [apply exec_shape|done|by apply grid_shape]. }
  rewrite get_rows_eval, get_seats_per_row_eval. cbn [fst]. split.
  - rewrite Hrows, size_range by lia. f_equal. lia.
  - eexists. split; [reflexivity|].
    apply subseteq_size in Hnums.
    pose proof (size_range (seats_per_row + 1)) as Hsz. lia.
Qed.

Lemma rows_never_change_witness :
  fst (get_rows (run [AddSeat (mkSeat 3 1 false zero); Reserve 3 1 20 4 ten]
                     (grid (range 1 3) (range 1 3)))) = Ok 2
  ∧ ∃ k, fst (get_seats_per_row
                (run [AddSeat (mkSeat 3 1 false zero); Reserve 3 1 20 4 ten]
                     (grid (range 1 3) (range 1 3)))) = Ok k
         ∧ 2 ≤ k.
Proof.
  apply (rows_never_change 2 2); [reflexivity|].
  repeat constructor.
Defined.

(* ===================================================================== *)
(** * A new hall and the seats it takes                                   *)
(* ===================================================================== *)

Section NewHall.

Lemma seqZ_snoc (m n : Z) :
  0 < n → seqZ m n = seqZ m (n - 1) ++ [m + n - 1].
Proof.
  intros Hn. replace n with ((n - 1) + 1) at 1 by lia.
  rewrite seqZ_app by lia. f_equal.
  rewrite seqZ_cons by lia. rewrite seqZ_nil by lia. f_equal. lia.
Qed.

Lemma last_grid (rows seats_per_row : Z) :
  0 < rows → 0 < seats_per_row →
  last (grid (range 1 (rows + 1)) (range 1 (seats_per_row + 1)))
  = Some (mkSeat seats_per_row rows false zero).
Proof.
  intros Hr Hs. unfold range, grid.
  rewrite (seqZ_snoc 1 (rows + 1 - 1)) by lia.
  rewrite flat_map_app. cbn [flat_map]. rewrite app_nil_r.
  unfold row_seats at 2. rewrite (seqZ_snoc 1 (seats_per_row + 1 - 1)) by lia.
  rewrite fmap_app. cbn [fmap list_fmap]. rewrite app_assoc, last_snoc.
  do 2 f_equal; lia.
Qed.

Lemma head_grid (rows seats_per_row : Z) :
  0 < rows → 0 < seats_per_row →
  head (grid (range 1 (rows + 1)) (range 1 (seats_per_row + 1)))
  = Some (mkSeat 1 1 false zero).
Proof.
  intros Hr Hs. unfold range, grid.
  rewrite (seqZ_cons 1 (rows + 1 - 1)) by lia. cbn [flat_map].
  unfold row_seats at 1. by rewrite (seqZ_cons 1 (seats_per_row + 1 - 1)) by lia.
Qed.

Lemma present_grid (rows seats_per_row number row : Z) :
  present (grid (range 1 (rows + 1)) (range 1 (seats_per_row + 1))) number row
  ↔ 1 ≤ number ≤ seats_per_row ∧ 1 ≤ row ≤ rows.
Proof.
  unfold present, range. rewrite Exists_exists. split.
  - intros (s & Hs & [Hn Hr]).
    apply elem_of_grid in Hs as (r & n & Hr' & Hn' & ->).
    apply elem_of_seqZ in Hr', Hn'. simpl in *. lia.
  - intros [Hn Hr]. exists (mkSeat number row false zero). split; [|done].
    apply elem_of_grid. exists row, number.
    rewrite !elem_of_seqZ. repeat split; lia.
Qed.

Lemma not_present_absent (h : Hall) (number row : Z) :
  ¬ present h number row → absent h number row.
Proof.
  intros Hnp. destruct (seat_cases h number row) as [|(i & s & Hi & Hk & _)];
    [done|].
  destruct Hnp. apply Exists_exists. exists s. split; [|done].
  by eapply list_elem_of_lookup_2.
Qed.

Lemma absent_same_keys (h h' : Hall) (number row : Z) :
  key <$> h = key <$> h' → absent h number row → absent h' number row.
Proof.
  unfold absent. revert h'. induction h as [|a h IH]; intros [|a' h'] Hk Ha;
    try done.
  cbn in Hk. inversion Hk as [[Hn Hr Hk']].
  apply Forall_cons in Ha as [Ha Hh].
  constructor; [|by apply IH].
  unfold has_key in *. by rewrite <- Hn, <- Hr.
Qed.

Lemma present_same_keys (h h' : Hall) (number row : Z) :
  key <$> h = key <$> h' → present h number row → present h' number row.
Proof.
  intros Hk Hp. destruct (seat_cases h' number row)
    as [Ha|(i & s & Hi & Hkey & _)].
  - destruct (present_absent h number row Hp).
    by apply (absent_same_keys h').
  - apply Exists_exists. exists s. split; [|done].
    by eapply list_elem_of_lookup_2.
Qed.

End NewHall.

(** X9.  What a hall fresh from the constructor says to
    [add_seat(Seat(number, row))]: a seat within the grid is a duplicate;
    a row above [rows] is out of range; in an existing row, a number
    above [seats_per_row + 1] is not the next one; and exactly the number
    [seats_per_row + 1], in any of the rows, is accepted. *)
Theorem add_seat_to_new_hall (rows seats_per_row number row : Z) (h : Hall)
    (seat : Seat) :
  new_CinemaHall (PyInt rows) (PyInt seats_per_row) = Ok h →
  Seat_init (PyInt number) (PyInt row) = Ok seat →
  (number ≤ seats_per_row ∧ row ≤ rows →
   add_seat seat h = (Raise DuplicateSeat, h))
  ∧ (rows < row →
     add_seat seat h = (Raise (RowOutOfRange 1 rows), h))
  ∧ (row ≤ rows ∧ seats_per_row + 1 < number →
     add_seat seat h = (Raise (NonSequentialSeat seats_per_row), h))
  ∧ (row ≤ rows ∧ number = seats_per_row + 1 →
     ∃ h', add_seat seat h
           = (Ok ("Seat " +:+ str_int number +:+ " in row " +:+ str_int row
                  +:+ " has been added."), h')
           ∧ Z.of_nat (length h') = rows * seats_per_row + 1).
Proof.
  intros Hnew Hseat.
  apply new_CinemaHall_Ok_inv in Hnew
    as (r & s & [= <-] & [= <-] & Hr & Hs & ->).
  assert (0 < number ∧ 0 < row ∧ seat = mkSeat number row false zero)
    as (Hn & Hrow & ->).
  { unfold Seat_init in Hseat. simpl in Hseat.
    destruct (Z.leb_spec number 0); [done|].
    destruct (Z.leb_spec row 0); [done|].
    injection Hseat as <-. repeat split; lia. }
  set (h := grid (range 1 (rows + 1)) (range 1 (seats_per_row + 1))).
  pose proof (last_grid rows seats_per_row Hr Hs) as Hlast.
  pose proof (head_grid rows seats_per_row Hr Hs) as Hhead.
  fold h in Hlast, Hhead.
  assert (∀ num rw, ¬ (num ≤ seats_per_row ∧ rw ≤ rows) →
            0 < num → 0 < rw →
            add_seat (mkSeat num rw false zero) h =
            if rw >? rows then (Raise (RowOutOfRange 1 rows), h)
            else if num =? seats_per_row + 1
            then (Ok (added_message (mkSeat num rw false zero)),
                  take (find_position (mkSeat num rw false zero) h 0) h
                  ++ mkSeat num rw false zero
                  :: drop (find_position (mkSeat num rw false zero) h 0) h)
            else (Raise (NonSequentialSeat seats_per_row), h)) as Hout.
  { intros num rw Hout Hnum Hrw. rewrite add_seat_absent.
    2:{ apply not_present_absent. intros Hp.
        apply present_grid in Hp. simpl in Hp. lia. }
    destruct h as [|first_seat rest] eqn:Hh; [done|].
    cbn zeta. rewrite (last_default _ first_seat _ Hlast).
    simpl in Hhead. injection Hhead as ->. done. }
  split; [|split; [|split]].
  - intros [Hle Hle']. apply add_seat_present, present_grid. simpl. lia.
  - intros Hgt. rewrite Hout by lia.
    by destruct (Z.gtb_spec row rows); [|lia].
  - intros [Hle Hgt]. rewrite Hout by lia.
    destruct (Z.gtb_spec row rows); [lia|].
    by destruct (Z.eqb_spec number (seats_per_row + 1)); [lia|].
  - intros [Hle ->]. rewrite Hout by lia.
    destruct (Z.gtb_spec row rows); [lia|].
    rewrite Z.eqb_refl. eexists. split; [reflexivity|].
    rewrite length_app. cbn [length].
    rewrite length_take, length_drop.
    unfold h. rewrite length_grid. unfold range. rewrite !length_seqZ. nia.
Qed.

Lemma add_seat_to_new_hall_witness :
  ∃ h', add_seat (mkSeat 11 3 false zero) (grid (range 1 6) (range 1 11))
        = (Ok ("Seat " +:+ str_int 11 +:+ " in row " +:+ str_int 3
               +:+ " has been added."), h')
        ∧ Z.of_nat (length h') = 5 * 10 + 1.
Proof.
  apply (add_seat_to_new_hall 5 10 11 3 (grid (range 1 6) (range 1 11))
           (mkSeat 11 3 false zero) eq_refl eq_refl).
  lia.
Defined.

(* ===================================================================== *)
(** * Reservations, one after another                                     *)
(* ===================================================================== *)

Section Sequences.

(** The seat looked up stays where it is when its fields are replaced. *)
Lemma seat_at_insert_same (h : Hall) (number row : Z) (i : nat)
    (seat : Seat) (reserved : bool) (price : num) :
  seat_at h number row i seat →
  seat_at (<[i := mkSeat number row reserved price]> h) number row i
          (mkSeat number row reserved price).
Proof.
  intros (Hi & Hk & Habs). split; [|split; [done|]].
  - apply list_lookup_insert_eq. by eapply lookup_lt_Some.
  - by rewrite take_insert_ge by lia.
Qed.

(** The hall after [reserve_seat] on a free seat, once the price of the
    reservation is there: the seat is reserved at that price, whether
    the format of the price then succeeds or raises. *)
Lemma reserve_seat_stored (h : Hall) (number row age day_of_week : Z)
    (base_price price : num) (i : nat) (seat : Seat) :
  seat_at h number row i seat → is_reserved seat = false →
  reservation_price base_price day_of_week age = Ok price →
  snd (reserve_seat number row age day_of_week base_price h)
  = <[i := mkSeat number row true price]> h.
Proof.
  intros Hat Hfree Hp. rewrite reserve_seat_eval.
  apply search_from_Some in Hat as Hs. rewrite Hs, Hfree, Hp. cbn [snd].
  destruct Hat as (Hi & [Hn Hr] & _).
  rewrite list_alter_alter_eq, (alter_lookup _ _ _ _ Hi).
  unfold with_reserved, with_price, compose. simpl. by rewrite Hn, Hr.
Qed.

(** When the price can also be formatted, [reserve_seat] succeeds. *)
Lemma reserve_seat_found (h : Hall) (number row age day_of_week : Z)
    (base_price price : num) (price_2f : string) (i : nat) (seat : Seat) :
  seat_at h number row i seat → is_reserved seat = false →
  reservation_price base_price day_of_week age = Ok price →
  format_2f_num price = Ok price_2f →
  reserve_seat number row age day_of_week base_price h
  = (Ok (reserved_message number row price_2f),
     <[i := mkSeat number row true price]> h).
Proof.
  intros Hat Hfree Hp Hf.
  pose proof (reserve_seat_stored _ _ _ _ _ _ _ _ _ Hat Hfree Hp) as Hst.
  rewrite reserve_seat_eval in *.
  apply search_from_Some in Hat as Hs. rewrite Hs, Hfree, Hp, Hf in *.
  cbn [snd] in Hst. by rewrite Hst.
Qed.

Lemma cancel_reservation_found (h : Hall) (number row : Z) (i : nat)
    (seat : Seat) :
  seat_at h number row i seat → is_reserved seat = true →
  snd (cancel_reservation number row h)
  = <[i := mkSeat number row false zero]> h
  ∧ ∃ msg, fst (cancel_reservation number row h) = Ok msg.
Proof.
  intros Hat Hres. rewrite cancel_reservation_eval.
  apply search_from_Some in Hat as Hs. rewrite Hs, Hres. cbn [fst snd].
  destruct Hat as (Hi & [Hn Hr] & _).
  rewrite list_alter_alter_eq, (alter_lookup _ _ _ _ Hi).
  unfold with_reserved, with_price, compose. simpl. rewrite Hn, Hr. eauto.
Qed.

(** Looking up another seat, in a hall where one seat was updated. *)
Lemma search_from_alter_other (f : Seat → Seat) (h : Hall)
    (number row number' row' : Z) (i : nat) (seat : Seat) :
  (∀ s, key (f s) = key s) →
  seat_at h number row i seat →
  ¬ (number' = number ∧ row' = row) →
  search_from 0 (alter f i h) number' row' = search_from 0 h number' row'.
Proof.
  intros Hf (Hi & [Hn Hr] & _) Hother.
  assert (key <$> h = key <$> alter f i h) as Hk
    by by rewrite fmap_key_alter.
  destruct (seat_cases h number' row') as [Ha|(j & s & Hj & Hkey & Habs)].
  - pose proof (absent_same_keys _ _ _ _ Hk Ha) as Ha'.
    apply search_from_None in Ha, Ha'. by rewrite Ha, Ha'.
  - assert (i ≠ j) as Hij.
    { intros ->. rewrite Hi in Hj. injection Hj as ->.
      destruct Hkey as [Hn' Hr']. apply Hother. split; congruence. }
    assert (seat_at (alter f i h) number' row' j s) as Hat'.
    { split; [by rewrite list_lookup_alter_ne|]. split; [done|].
      eapply absent_same_keys; [|exact Habs].
      by rewrite !fmap_take, Hk. }
    assert (seat_at h number' row' j s) as Hat by done.
    apply search_from_Some in Hat, Hat'. by rewrite Hat, Hat'.
Qed.

End Sequences.

(** X10.  The life of a reservation.  Once a seat is reserved, a second
    [reserve_seat] for it, with any age, day and base price, fails with
    "already reserved" and changes nothing; cancelling gives back the
    hall from before the reservation (for a seat that had price 0); and
    a second cancellation fails with "not reserved". *)
Theorem reservation_life (h : Hall) (number row : Z) (i : nat) (seat : Seat)
    (age day_of_week age' day_of_week' : Z) (base_price base_price' : num) :
  seat_at h number row i seat →
  is_reserved seat = false →
  get_price seat = zero →
  let h1 := snd (reserve_seat number row age day_of_week base_price h) in
  let h2 := snd (cancel_reservation number row h1) in
  is_reserved <$> h1 !! i = Some true →
  reserve_seat number row age' day_of_week' base_price' h1
  = (Raise AlreadyReserved, h1)
  ∧ h2 = h
  ∧ cancel_reservation number row h2 = (Raise NotReserved, h2).
Proof.
  intros Hat Hfree Hzero. cbn zeta. intros Hres.
  destruct (reserve_seat_state h number row age day_of_week base_price)
    as [Hsame|(j & s & p & Hat' & _ & Hp & _)].
  { rewrite Hsame in Hres. destruct Hat as (Hi & _).
    rewrite Hi in Hres. simpl in Hres. congruence. }
  clear j s Hat'.
  rewrite (reserve_seat_stored _ _ _ _ _ _ p _ _ Hat Hfree Hp).
  rewrite (reserve_seat_stored _ _ _ _ _ _ p _ _ Hat Hfree Hp) in Hres.
  pose proof (seat_at_insert_same _ _ _ _ _ true p Hat) as Hat1.
  destruct (cancel_reservation_found _ _ _ _ _ Hat1 eq_refl) as [Hc _].
  rewrite Hc, list_insert_insert_eq.
  assert (<[i := mkSeat number row false zero]> h = h) as Hid.
  { apply list_insert_id. destruct Hat as (Hi & [Hn Hr] & _).
    rewrite Hi. f_equal. destruct seat. simpl in *. congruence. }
  rewrite Hid. split; [|split; [done|]].
  - rewrite reserve_seat_eval.
    apply search_from_Some in Hat1. by rewrite Hat1.
  - rewrite cancel_reservation_eval.
    apply search_from_Some in Hat. by rewrite Hat, Hfree.
Qed.

Lemma reservation_life_witness :
  let h := [mkSeat 1 1 false zero; mkSeat 2 1 false zero] in
  let h1 := snd (reserve_seat 2 1 30 0 (NInt (10 ^ 400)) h) in
  let h2 := snd (cancel_reservation 2 1 h1) in
  is_reserved <$> h1 !! 1%nat = Some true
  ∧ reserve_seat 2 1 30 4 ten h1 = (Raise AlreadyReserved, h1)
  ∧ h2 = h
  ∧ cancel_reservation 2 1 h2 = (Raise NotReserved, h2).
Proof.
  split; [vm_compute; reflexivity|].
  apply (reservation_life [mkSeat 1 1 false zero; mkSeat 2 1 false zero]
           2 1 1%nat (mkSeat 2 1 false zero) 30 0 30 4 (NInt (10 ^ 400)) ten).
  - split; [reflexivity|]. split; [split; reflexivity|].
    constructor; [|constructor]. unfold has_key. simpl. lia.
  - reflexivity.
  - reflexivity.
  - vm_compute. reflexivity.
Defined.

(** X11.  Reserving or cancelling one seat leaves every other seat as it
    is: [search_seat] for another number or row returns the same seat,
    at the same place, after the call as before it. *)
Theorem other_seats_untouched (h : Hall)
    (number row number' row' age day_of_week : Z) (base_price : num) :
  ¬ (number' = number ∧ row' = row) →
  fst (search_seat number' row'
         (snd (reserve_seat number row age day_of_week base_price h)))
  = fst (search_seat number' row' h)
  ∧ fst (search_seat number' row' (snd (cancel_reservation number row h)))
    = fst (search_seat number' row' h).
Proof.
  intros Hother. unfold search_seat. run_M. cbn [fst]. split.
  - destruct (reserve_seat_state h number row age day_of_week base_price)
      as [->|(i & seat & price & Hat & _ & _ & ->)]; [done|].
    f_equal. by apply (search_from_alter_other _ _ number row _ _ _ seat).
  - rewrite cancel_reservation_eval.
    destruct (search_from 0 h number row) as [[i seat]|] eqn:Hs; [|done].
    apply search_from_Some in Hs.
    destruct (is_reserved seat); cbn [snd]; [|done].
    rewrite list_alter_alter_eq. f_equal.
    by apply (search_from_alter_other _ _ number row _ _ _ seat).
Qed.

Lemma other_seats_untouched_witness :
  fst (search_seat 1 1
         (snd (reserve_seat 2 1 70 2 ten
                 [mkSeat 1 1 true ten; mkSeat 2 1 false zero])))
  = fst (search_seat 1 1 [mkSeat 1 1 true ten; mkSeat 2 1 false zero])
  ∧ fst (search_seat 1 1
           (snd (cancel_reservation 2 1
                   [mkSeat 1 1 true ten; mkSeat 2 1 false zero])))
    = fst (search_seat 1 1 [mkSeat 1 1 true ten; mkSeat 2 1 false zero]).
Proof.
  apply (other_seats_untouched [mkSeat 1 1 true ten; mkSeat 2 1 false zero]
           2 1 1 1 70 2 ten).
  lia.
Defined.

(* ===================================================================== *)
(** * The script's round, and the price on show                           *)
(* ===================================================================== *)

Section Round.

Lemma reserve_round_eval (t : definition_time)
    (client_number client_row client_age : Z) (h : Hall) :
  reserve_round t client_number client_row client_age h =
  if negb ((1 <=? client_number)
           && (client_number <=? Z.of_nat (size (number_set h))))
  then (Raise (ValueError "Invalid seat number."), h)
  else if negb ((1 <=? client_row)
                && (client_row <=? Z.of_nat (size (row_set h))))
  then (Raise (ValueError "Invalid seat row."), h)
  else if negb ((0 <=? client_age) && (client_age <=? 120))
  then (Raise (ValueError "Invalid age."), h)
  else reserve_seat client_number client_row client_age
         (reserve_seat_default_day t) ten h.
Proof.
  unfold reserve_round, get_seats_per_row, get_rows, call_reserve_seat.
  fold (number_set h). fold (row_set h).
  destruct (1 <=? client_number); run_M; cbn [andb negb]; [|done].
  fold (number_set h).
  destruct (client_number <=? Z.of_nat (size (number_set h)));
    cbn [negb]; [|done].
  destruct (1 <=? client_row); run_M; cbn [andb negb]; [|done].
  fold (row_set h).
  destruct (client_row <=? Z.of_nat (size (row_set h))); cbn [negb]; [|done].
  by destruct ((0 <=? client_age) && (client_age <=? 120)).
Qed.

Lemma new_hall_sets (rows seats_per_row : Z) (h0 : Hall) :
  new_CinemaHall (PyInt rows) (PyInt seats_per_row) = Ok h0 →
  0 < rows ∧ 0 < seats_per_row
  ∧ Z.of_nat (size (row_set h0)) = rows
  ∧ Z.of_nat (size (number_set h0)) = seats_per_row
  ∧ h0 = grid (range 1 (rows + 1)) (range 1 (seats_per_row + 1)).
Proof.
  intros Hnew.
  apply new_CinemaHall_Ok_inv in Hnew
    as (r & s & [= <-] & [= <-] & Hr & Hs & ->).
  rewrite row_set_grid by (apply range_nonempty; lia).
  rewrite number_set_grid by (apply range_nonempty; lia).
  rewrite !size_range by lia. repeat split; lia.
Qed.

Lemma reserve_seat_NotFound (h : Hall) (number row age day_of_week : Z)
    (base_price : num) :
  fst (reserve_seat number row age day_of_week base_price h) = Raise NotFound
  → absent h number row.
Proof.
  rewrite reserve_seat_eval.
  destruct (search_from 0 h number row) as [[i seat]|] eqn:Hs.
  - destruct (is_reserved seat); [done|].
    destruct (reservation_price base_price day_of_week age)
      as [price|e] eqn:Hp; cbn [fst].
    + destruct (format_2f_num price) as [t|e] eqn:Hf; [done|].
      apply format_2f_num_raise in Hf. by intros [= ->].
    + apply reservation_price_raise in Hp. by intros [= ->].
  - intros _. by apply search_from_None.
Qed.

End Round.

(** X12.  A round of the script on a hall with the seats of the
    constructor's grid (reserved or not).  A number outside
    [1..seats_per_row], then a row outside [1..rows], then an age outside
    [0..120] is refused, with nothing changed; what passes the three
    checks names a seat of the hall, so the reservation that follows
    never fails with "does not exist". *)
Theorem reserve_round_on_grid (t : definition_time)
    (rows seats_per_row : Z) (h0 h : Hall)
    (client_number client_row client_age : Z) :
  new_CinemaHall (PyInt rows) (PyInt seats_per_row) = Ok h0 →
  key <$> h = key <$> h0 →
  (¬ 1 ≤ client_number ≤ seats_per_row →
   reserve_round t client_number client_row client_age h
   = (Raise (ValueError "Invalid seat number."), h))
  ∧ (1 ≤ client_number ≤ seats_per_row → ¬ 1 ≤ client_row ≤ rows →
     reserve_round t client_number client_row client_age h
     = (Raise (ValueError "Invalid seat row."), h))
  ∧ (1 ≤ client_number ≤ seats_per_row → 1 ≤ client_row ≤ rows →
     ¬ 0 ≤ client_age ≤ 120 →
     reserve_round t client_number client_row client_age h
     = (Raise (ValueError "Invalid age."), h))
  ∧ (1 ≤ client_number ≤ seats_per_row → 1 ≤ client_row ≤ rows →
     0 ≤ client_age ≤ 120 →
     reserve_round t client_number client_row client_age h
     = reserve_seat client_number client_row client_age
         (reserve_seat_default_day t) ten h
     ∧ present h client_number client_row
     ∧ fst (reserve_round t client_number client_row client_age h)
       ≠ Raise NotFound).
Proof.
  intros Hnew Hk.
  destruct (new_hall_sets rows seats_per_row h0 Hnew)
    as (Hr & Hs & Hrows & Hnums & Hgrid).
  destruct (same_keys_same_sets _ _ Hk) as [Hrs Hns].
  rewrite reserve_round_eval, Hrs, Hns, Hrows, Hnums.
  destruct (Z.leb_spec 1 client_number), (Z.leb_spec client_number seats_per_row),
    (Z.leb_spec 1 client_row), (Z.leb_spec client_row rows),
    (Z.leb_spec 0 client_age), (Z.leb_spec client_age 120);
    cbn [andb negb]; repeat split; intros; try lia; try done.
  - eapply present_same_keys; [symmetry; exact Hk|].
    rewrite Hgrid. apply present_grid. lia.
  - assert (present h client_number client_row) as Hp.
    { eapply present_same_keys; [symmetry; exact Hk|].
      rewrite Hgrid. apply present_grid. lia. }
    intros Hnf. apply reserve_seat_NotFound in Hnf.
    by destruct (present_absent _ _ _ Hp).
Qed.

Lemma reserve_round_on_grid_witness :
  reserve_round {| reserve_seat_default_day := 2; show_seats_default_day := 2 |}
    7 1 30 (grid (range 1 6) (range 1 6))
  = (Raise (ValueError "Invalid seat number."), grid (range 1 6) (range 1 6))
  ∧ fst (reserve_round
           {| reserve_seat_default_day := 2; show_seats_default_day := 2 |}
           5 5 70 (grid (range 1 6) (range 1 6)))
    ≠ Raise NotFound.
Proof.
  pose proof (λ n r a,
    reserve_round_on_grid
      {| reserve_seat_default_day := 2; show_seats_default_day := 2 |}
      5 5 (grid (range 1 6) (range 1 6)) (grid (range 1 6) (range 1 6))
      n r a eq_refl eq_refl) as H.
  split.
  - apply (proj1 (H 7 1 30)). lia.
  - apply (proj2 (proj2 (proj2 (H 5 5 70)))); lia.
Defined.

(** X13.  The price quoted is the price charged.  For a customer of 65
    or less, the price that [show_seats] prints for a free seat, on a
    day and at a base price, is the price that [reserve_seat] stores for
    that seat on that day at that base price; and from then on
    [show_seats] prints that stored price for the seat, as "Reserved",
    whatever day and base price it is called with. *)
Theorem quoted_price_is_charged (repr_float : float → string) (h : Hall)
    (number row : Z) (i : nat) (seat : Seat)
    (age day_of_week day_of_week' : Z) (base_price base_price' : num)
    (text text1 : string) :
  seat_at h number row i seat →
  is_reserved seat = false →
  age ≤ 65 →
  let h1 := snd (reserve_seat number row age day_of_week base_price h) in
  fst (show_seats repr_float day_of_week base_price h) = Ok text →
  fst (show_seats repr_float day_of_week' base_price' h1) = Ok text1 →
  ∃ (price : num) (lines lines1 : list string),
    text = join newline lines
    ∧ lines !! i
      = Some ("Seat " +:+ str_int number +:+ ", row " +:+ str_int row
              +:+ ": Available, Price: " +:+ str_num repr_float price
              +:+ "€")
    ∧ h1 !! i = Some (mkSeat number row true price)
    ∧ text1 = join newline lines1
    ∧ lines1 !! i
      = Some ("Seat " +:+ str_int number +:+ ", row " +:+ str_int row
              +:+ ": Reserved, Price: " +:+ str_num repr_float price
              +:+ "€")
    ∧ length lines = length h ∧ length lines1 = length h.
Proof.
  intros Hat Hfree Hage. cbn zeta.
  rewrite !show_seats_eval.
  destruct (shown_price base_price day_of_week) as [shown|e] eqn:Hshown;
    [|done].
  assert (reservation_price base_price day_of_week age = Ok shown) as Hp.
  { unfold reservation_price. unfold shown_price in Hshown.
    destruct (bool_decide (day_of_week = 2)); case_bool_decide; try lia;
      done. }
  rewrite (reserve_seat_stored _ _ _ _ _ _ shown _ _ Hat Hfree Hp).
  destruct (shown_price base_price' day_of_week') as [shown'|e] eqn:Hshown';
    [|done].
  cbn [fst]. intros [= <-] [= <-].
  destruct Hat as (Hi & [Hn Hr] & _).
  pose proof (lookup_lt_Some _ _ _ Hi) as Hlt.
  exists shown. eexists _, _.
  split; [reflexivity|]. split; [|split; [|split; [|split]]].
  - rewrite list_lookup_fmap, Hi. cbn [fmap option_fmap option_map].
    unfold displayed_line, displayed_price. rewrite Hfree, Hn, Hr.
    reflexivity.
  - by rewrite list_lookup_insert_eq.
  - reflexivity.
  - rewrite list_lookup_fmap, list_lookup_insert_eq by done.
    cbn [fmap option_fmap option_map].
    unfold displayed_line, displayed_price. simpl. reflexivity.
  - by rewrite !length_fmap, length_insert.
Qed.

Lemma quoted_price_is_charged_witness :
  let h := [mkSeat 1 1 false zero; mkSeat 2 1 false zero] in
  let h1 := snd (reserve_seat 2 1 40 2 ten h) in
  ∃ (price : num) (lines lines1 : list string),
    join newline
      ["Seat 1, row 1: Available, Price: 8.0€";
       "Seat 2, row 1: Available, Price: 8.0€"]
    = join newline lines
    ∧ lines !! 1%nat
      = Some ("Seat " +:+ str_int 2 +:+ ", row " +:+ str_int 1
              +:+ ": Available, Price: " +:+ str_num (λ _, "8.0") price
              +:+ "€")
    ∧ h1 !! 1%nat = Some (mkSeat 2 1 true price)
    ∧ join newline
        ["Seat 1, row 1: Available, Price: 0€";
         "Seat 2, row 1: Reserved, Price: 8.0€"]
      = join newline lines1
    ∧ lines1 !! 1%nat
      = Some ("Seat " +:+ str_int 2 +:+ ", row " +:+ str_int 1
              +:+ ": Reserved, Price: " +:+ str_num (λ _, "8.0") price
              +:+ "€")
    ∧ length lines = length h ∧ length lines1 = length h.
Proof.
  apply (quoted_price_is_charged (λ _, "8.0")
           [mkSeat 1 1 false zero; mkSeat 2 1 false zero]
           2 1 1%nat (mkSeat 2 1 false zero) 40 2 5 ten zero).
  - split; [reflexivity|]. split; [split; reflexivity|].
    constructor; [|constructor]. unfold has_key. simpl. lia.
  - reflexivity.
  - lia.
  - vm_compute. reflexivity.
  - vm_compute. reflexivity.
Defined.

(** X14.  In a hall fresh from the constructor nothing is reserved:
    for every number in [1..seats_per_row] and row in [1..rows],
    cancelling fails with "not reserved" and leaves the hall alone, and
    reserving succeeds, whatever the age and the day, at every base price
    that is a float or an int with a float value. *)
Theorem new_hall_all_free (rows seats_per_row number row : Z) (h : Hall)
    (age day_of_week : Z) (base_price : num) (b : float) :
  new_CinemaHall (PyInt rows) (PyInt seats_per_row) = Ok h →
  1 ≤ number ≤ seats_per_row → 1 ≤ row ≤ rows →
  to_float base_price = Ok b →
  cancel_reservation number row h = (Raise NotReserved, h)
  ∧ ∃ price_2f h',
      format_2f_num (discounted base_price b day_of_week age) = Ok price_2f
      ∧ reserve_seat number row age day_of_week base_price h
        = (Ok ("Seat " +:+ str_int number +:+ " in row " +:+ str_int row
               +:+ " has been reserved. Price: " +:+ price_2f +:+ "€"), h')
      ∧ found_seat (fst (search_seat number row h'))
        = Some (mkSeat number row true
                  (discounted base_price b day_of_week age)).
Proof.
  intros Hnew Hn Hr Hb.
  destruct (new_hall_sets _ _ _ Hnew) as (_ & _ & _ & _ & ->).
  set (h := grid (range 1 (rows + 1)) (range 1 (seats_per_row + 1))).
  assert (present h number row) as Hp by by apply present_grid.
  destruct (seat_cases h number row) as [Ha|(i & seat & Hat)].
  { by destruct (present_absent _ _ _ Hp). }
  assert (is_reserved seat = false) as Hfree.
  { destruct Hat as (Hi & _). apply list_elem_of_lookup_2 in Hi.
    by apply elem_of_grid in Hi as (r & n & _ & _ & ->). }
  split.
  - rewrite cancel_reservation_eval.
    apply search_from_Some in Hat. by rewrite Hat, Hfree.
  - destruct (format_discounted base_price b day_of_week age Hb)
      as [price_2f Hf].
    pose proof (reservation_price_discounted _ _ day_of_week age Hb) as Hprice.
    exists price_2f. eexists. split; [done|]. split.
    { by apply (reserve_seat_found _ _ _ _ _ _
                  (discounted base_price b day_of_week age) _ i seat). }
    rewrite found_seat_search.
    pose proof (seat_at_insert_same _ _ _ _ _ true
                  (discounted base_price b day_of_week age) Hat) as Hat1.
    apply search_from_Some in Hat1. by rewrite Hat1.
Qed.

Lemma new_hall_all_free_witness :
  cancel_reservation 7 3 (grid (range 1 6) (range 1 11))
  = (Raise NotReserved, grid (range 1 6) (range 1 11))
  ∧ ∃ price_2f h',
      format_2f_num (discounted ten (float_of_Z 10) 1 80) = Ok price_2f
      ∧ reserve_seat 7 3 80 1 ten (grid (range 1 6) (range 1 11))
        = (Ok ("Seat " +:+ str_int 7 +:+ " in row " +:+ str_int 3
               +:+ " has been reserved. Price: " +:+ price_2f +:+ "€"), h')
      ∧ found_seat (fst (search_seat 7 3 h'))
        = Some (mkSeat 7 3 true (discounted ten (float_of_Z 10) 1 80)).
Proof.
  apply (new_hall_all_free 5 10 7 3 (grid (range 1 6) (range 1 11)) 80 1 ten
           (float_of_Z 10) eq_refl); [lia|lia|].
  vm_compute. reflexivity.
Defined.
